(** * Session-gated note service: a shallow embedding of the Go sources

    The development follows the two Go files of the repository:

    - [repo/user_repo.go] (package [repo]): the principal store on top of a
      pgx connection pool, embedded in [Module Repo];
    - the [main] package (router, session gate, handlers), embedded in
      [Module Main].

    Go values are modelled as the code has them: [uint] as [N], strings as
    [string], [error] as an optional message ([None] is Go's [nil]),
    [map[string]string] as [gmap string string], and every call that leaves
    the process (pgx, the session store, the response writer, the loggers)
    as an explicit step on a state that records what was done. *)

From Stdlib Require Import Ascii String ZArith NArith Lia.
From stdpp Require Import base strings list gmap.

Local Open Scope string_scope.

(** ** Shared vocabulary *)

(** Go's [error]: an interface whose only observable is [Error()]. *)
Inductive error : Type := Err (msg : string).

Definition error_msg (e : error) : string := match e with Err m => m end.

Global Instance error_eq_dec : EqDecision error.
Proof. solve_decision. Defined.

(** [context.Context] as far as the program distinguishes contexts:
    [context.Background()], [context.TODO()] and the context of an inbound
    request, which is the only one that can be cancelled. *)
Inductive Ctx : Type :=
| CtxBackground
| CtxTODO
| CtxRequest (cancelled : bool).

Global Instance Ctx_eq_dec : EqDecision Ctx.
Proof. solve_decision. Defined.

Definition ctx_done (c : Ctx) : bool :=
  match c with
  | CtxRequest true => true
  | _ => false
  end.

Definition context_Canceled : error := Err "context canceled".

(** A small state monad: Go statements that touch the outside world become
    steps on an explicit state. *)
Definition M (S A : Type) : Type := S -> A * S.

Definition ret {S A : Type} (a : A) : M S A := fun s => (a, s).

Definition bind {S A B : Type} (m : M S A) (f : A -> M S B) : M S B :=
  fun s => let (a, s') := m s in f a s'.

Notation "'let*' x ':=' c 'in' k" := (bind c (fun x => k))
  (at level 10, x name, c at level 100, k at level 200, only parsing).
Notation "'run' c 'then' k" := (bind c (fun _ => k))
  (at level 10, c at level 100, k at level 200, only parsing).

(** ** Package [repo]: the principal store ([repo/user_repo.go]) *)
Module Repo.

(** [type User struct { ID uint; Username string; AuthId string }] *)
Record User : Type := mkUser {
  ID : N;
  Username : string;
  AuthId : string;
}.

Global Instance User_eq_dec : EqDecision User.
Proof. solve_decision. Defined.

(** The composite literal [User{}]. *)
Definition User_zero : User := mkUser 0%N "" "".

(** Values travelling to and from the database driver. *)
Inductive SqlValue : Type :=
| SqlUint (n : N)
| SqlText (s : string)
| SqlBool (b : bool).

Global Instance SqlValue_eq_dec : EqDecision SqlValue.
Proof. solve_decision. Defined.

(** What [QueryRow(...).Scan(dest...)] does: either it fails and leaves the
    destinations alone, or it stores the columns of the first row. *)
Inductive ScanOutcome : Type :=
| ScanErr (e : error)
| ScanOk (cols : list SqlValue).

(** The part of [*pgxpool.Pool] the repository uses. *)
Class Pool (P : Type) : Type := {
  pool_QueryRow : Ctx -> string -> list SqlValue -> M P ScanOutcome;
  pool_Exec : Ctx -> string -> list SqlValue -> M P (option error);
}.

(** Assignment through the [Scan] destinations; a destination keeps its
    previous (zero) value when no column of its type arrives. *)
Definition scan_uint (old : N) (v : option SqlValue) : N :=
  match v with Some (SqlUint n) => n | _ => old end.
Definition scan_string (old : string) (v : option SqlValue) : string :=
  match v with Some (SqlText s) => s | _ => old end.
Definition scan_bool (old : bool) (v : option SqlValue) : bool :=
  match v with Some (SqlBool b) => b | _ => old end.

Definition sql_get : string :=
  "select id, username, auth_id from users where users.id = $1".
Definition sql_exists : string :=
  "SELECT EXISTS(select 1 from users where auth_id=$1)".
Definition sql_add : string :=
  "INSERT INTO users (username, auth_id) VALUES ($1, $2)".

Section UserRepo.
Context {P : Type} `{Pool P}.

(** [func (rr UserRepo) Get(ctx context.Context, id uint) (error, User)].
    The query is issued with [context.TODO()], as in the source, and the
    returned [ID] is the argument, not the scanned [userId]. *)
Definition Get (ctx : Ctx) (id : N) : M P (option error * User) :=
  let* r := pool_QueryRow CtxTODO sql_get [SqlUint id] in
  match r with
  | ScanErr err => ret (Some err, User_zero)
  | ScanOk cols =>
      let userId := scan_uint 0%N (cols !! 0%nat) in
      let username := scan_string "" (cols !! 1%nat) in
      let authId := scan_string "" (cols !! 2%nat) in
      let user := mkUser id username authId in
      ret (None, user)
  end.

(** [func (rr UserRepo) Exists(ctx context.Context, authId string) (error, bool)] *)
Definition Exists (ctx : Ctx) (authId : string) : M P (option error * bool) :=
  let* r := pool_QueryRow ctx sql_exists [SqlText authId] in
  match r with
  | ScanErr err => ret (Some err, false)
  | ScanOk cols => ret (None, scan_bool false (cols !! 0%nat))
  end.

(** [func (rr UserRepo) Add(ctx context.Context, username string, authId string) error] *)
Definition Add (ctx : Ctx) (username authId : string) : M P (option error) :=
  pool_Exec ctx sql_add [SqlText username; SqlText authId].

End UserRepo.

(** *** A database behind the pool

    One [users] table, a connection that may be down, and a journal of the
    calls the driver received together with the context of each. *)

Inductive DbCall : Type :=
| CallQueryRow (ctx : Ctx) (sql : string) (args : list SqlValue)
| CallExec (ctx : Ctx) (sql : string) (args : list SqlValue).

Definition call_ctx (c : DbCall) : Ctx :=
  match c with CallQueryRow ctx _ _ | CallExec ctx _ _ => ctx end.

Record Pg : Type := mkPg {
  pg_rows : list User;
  pg_next_id : N;
  pg_up : bool;
  pg_calls : list DbCall;
}.

Definition pgx_ErrNoRows : error := Err "no rows in result set".
Definition pg_conn_error : error := Err "failed to connect".
Definition pg_sql_error : error := Err "unsupported statement".

Definition pg_log (c : DbCall) (p : Pg) : Pg :=
  mkPg (pg_rows p) (pg_next_id p) (pg_up p) (pg_calls p ++ [c]).

Definition pg_select (sql : string) (args : list SqlValue) (p : Pg) : ScanOutcome :=
  if String.eqb sql sql_get then
    match args with
    | [SqlUint id] =>
        match List.find (fun u => N.eqb (ID u) id) (pg_rows p) with
        | Some u => ScanOk [SqlUint (ID u); SqlText (Username u); SqlText (AuthId u)]
        | None => ScanErr pgx_ErrNoRows
        end
    | _ => ScanErr pg_sql_error
    end
  else if String.eqb sql sql_exists then
    match args with
    | [SqlText a] =>
        ScanOk [SqlBool (existsb (fun u => String.eqb (AuthId u) a) (pg_rows p))]
    | _ => ScanErr pg_sql_error
    end
  else ScanErr pg_sql_error.

Definition pg_QueryRow (ctx : Ctx) (sql : string) (args : list SqlValue)
  : M Pg ScanOutcome :=
  fun p =>
    let p' := pg_log (CallQueryRow ctx sql args) p in
    if ctx_done ctx then (ScanErr context_Canceled, p')
    else if negb (pg_up p) then (ScanErr pg_conn_error, p')
    else (pg_select sql args p, p').

(** Modelled from the spec: the [users] table (its migration is not part of
    the sources). Section 3 and section 9 of the specification say
    that the store does not enforce one row per [external_auth_id], so the
    table carries no uniqueness constraint on [auth_id]: an [INSERT] always
    appends a row under a fresh serial [id]. *)
Definition pg_insert (sql : string) (args : list SqlValue) (p : Pg)
  : option error * Pg :=
  if String.eqb sql sql_add then
    match args with
    | [SqlText username; SqlText authId] =>
        (None, mkPg (pg_rows p ++ [mkUser (pg_next_id p) username authId])
                    (N.succ (pg_next_id p)) (pg_up p) (pg_calls p))
    | _ => (Some pg_sql_error, p)
    end
  else (Some pg_sql_error, p).

Definition pg_Exec (ctx : Ctx) (sql : string) (args : list SqlValue)
  : M Pg (option error) :=
  fun p =>
    let p' := pg_log (CallExec ctx sql args) p in
    if ctx_done ctx then (Some context_Canceled, p')
    else if negb (pg_up p) then (Some pg_conn_error, p')
    else pg_insert sql args p'.

Global Instance Pg_Pool : Pool Pg := {|
  pool_QueryRow := pg_QueryRow;
  pool_Exec := pg_Exec;
|}.

(** Number of principal rows carrying a given [auth_id]. *)
Definition auth_count (a : string) (p : Pg) : nat :=
  length (List.filter (fun u => String.eqb (AuthId u) a) (pg_rows p)).

(** The data-model invariant: no [auth_id] labels two rows. *)
Definition unique_auth (p : Pg) : Prop :=
  forall a, (auth_count a p <= 1)%nat.

(** Modelled from the spec: the registration discipline that section 3
    asks of the caller (the caller itself lives in an external package):
    [Exists] first, [Add] only when it answered no. *)
Definition checked_Add (ctx : Ctx) (username authId : string)
  : M Pg (option error) :=
  let* r := Exists ctx authId in
  match r with
  | (Some err, _) => ret (Some err)
  | (None, true) => ret None
  | (None, false) => Add ctx username authId
  end.

(** One schedule of two registrations of the same [auth_id] running side
    by side: both checks are answered before either insert is issued. The
    result is what the two checks answered. *)
Definition racing_registrations (ctx : Ctx) (u1 u2 authId : string)
  : M Pg (bool * bool) :=
  let* c1 := Exists ctx authId in
  let* c2 := Exists ctx authId in
  run (if snd c1 then ret None else Add ctx u1 authId) then
  run (if snd c2 then ret None else Add ctx u2 authId) then
  ret (snd c1, snd c2).

(** A table with one principal, used to run the operations. *)
Definition pg_one : Pg :=
  mkPg [mkUser 1 "ada" "auth0|ada"] 2 true [].

End Repo.

(** ** Strings as the Go code slices them *)

Definition isDigitChar (c : ascii) : bool :=
  (48 <=? nat_of_ascii c)%nat && (nat_of_ascii c <=? 57)%nat.

(** [int(c - '0')] *)
Definition digitVal (c : ascii) : Z := Z.of_nat (nat_of_ascii c) - 48.

(** [strings.HasPrefix] and the slice after the prefix in one step. *)
Fixpoint strip_prefix (p s : string) : option string :=
  match p with
  | EmptyString => Some s
  | String a p' =>
      match s with
      | String b s' => if Ascii.eqb a b then strip_prefix p' s' else None
      | EmptyString => None
      end
  end.

(** The longest prefix whose bytes all satisfy [f], and what follows it. *)
Fixpoint span (f : ascii -> bool) (s : string) : string * string :=
  match s with
  | EmptyString => (EmptyString, EmptyString)
  | String c s' =>
      if f c then let (a, b) := span f s' in (String c a, b)
      else (EmptyString, s)
  end.

Fixpoint all_chars (f : ascii -> bool) (s : string) : bool :=
  match s with
  | EmptyString => true
  | String c s' => f c && all_chars f s'
  end.

(** ** Package [time]: [time.Parse(time.RFC3339, value)]

    The standard library is not part of the repository; this is its parsing
    loop specialised to the one layout the program uses,
    ["2006-01-02T15:04:05Z07:00"], chunk by chunk. A [Time] is kept as the
    clock reading in its zone together with the zone offset in seconds. *)
Module GoTime.

Local Open Scope Z_scope.

Record Time : Type := mkTime {
  t_year : Z;
  t_month : Z;
  t_day : Z;
  t_hour : Z;
  t_min : Z;
  t_sec : Z;
  t_nsec : Z;
  t_offset : Z;
}.

Global Instance Time_eq_dec : EqDecision Time.
Proof. solve_decision. Defined.

(** The three arguments of [newParseError] that change from one failure
    to the next: the piece of the layout that was due, the input still
    unread, and a message for the failures that are not a mismatch. *)
Record Failure : Type := newParseError {
  LayoutElem : string;
  ValueElem : string;
  Message : string;
}.

Definition RFC3339 : string := "2006-01-02T15:04:05Z07:00".

Definition dquote : ascii := "034"%char.

Definition lowerhex (n : nat) : ascii :=
  default "0"%char (String.get n "0123456789abcdef").

(** The body of [quote(s)] (Go 1.20 and later): a byte outside printable
    ASCII is written as [\x] and two hexadecimal digits, a double quote
    or a backslash is preceded by a backslash. *)
Fixpoint quote_bytes (s : string) : string :=
  match s with
  | EmptyString => EmptyString
  | String c s' =>
      let b := nat_of_ascii c in
      if ((128 <=? b) || (b <? 32))%nat then
        "\x" +:+ String (lowerhex (b / 16)) (String (lowerhex (b mod 16)) (quote_bytes s'))
      else if Ascii.eqb c dquote || Ascii.eqb c "\"%char then
        String "\"%char (String c (quote_bytes s'))
      else String c (quote_bytes s')
  end.

Definition quote (s : string) : string :=
  String dquote (quote_bytes s +:+ String dquote EmptyString).

(** The method [Error()] of a [ParseError] with layout [alayout] and
    input [avalue]. *)
Definition ParseError_Error (alayout avalue : string) (e : Failure) : string :=
  if String.eqb (Message e) "" then
    "parsing time " +:+ quote avalue +:+ " as " +:+ quote alayout +:+
    ": cannot parse " +:+ quote (ValueElem e) +:+ " as " +:+ quote (LayoutElem e)
  else "parsing time " +:+ quote avalue +:+ Message e.

Definition ParseError (alayout avalue : string) (e : Failure) : error :=
  Err (ParseError_Error alayout avalue e).

Definition out_of_range (rangeErrString : string) : string :=
  ": " +:+ rangeErrString +:+ " out of range".

(** [getnum(s, fixed)]: one or two leading digits; two are required when
    [fixed]. *)
Definition getnum (s : string) (fixed : bool) : option (Z * string) :=
  match s with
  | String c0 s1 =>
      if isDigitChar c0 then
        match s1 with
        | String c1 s2 =>
            if isDigitChar c1 then Some (digitVal c0 * 10 + digitVal c1, s2)
            else if fixed then None else Some (digitVal c0, s1)
        | EmptyString => if fixed then None else Some (digitVal c0, s1)
        end
      else None
  | EmptyString => None
  end.

(** [skip(value, prefix)] for a one-byte literal of the layout. *)
Definition skip (c : ascii) (value : string) : option string :=
  match value with
  | String c' rest => if Ascii.eqb c' c then Some rest else None
  | EmptyString => None
  end.

(** [stdLongYear]: the first four bytes, read by [atoi]. *)
Definition getyear (value : string) : option (Z * string) :=
  match value with
  | String a (String b (String c (String d rest))) =>
      if isDigitChar a && isDigitChar b && isDigitChar c && isDigitChar d
      then Some (((digitVal a * 10 + digitVal b) * 10 + digitVal c) * 10 + digitVal d, rest)
      else None
  | _ => None
  end.

(** [atoi] of a run of digits, most significant first. *)
Fixpoint digitsVal (acc : Z) (s : string) : Z :=
  match s with
  | EmptyString => acc
  | String c s' => digitsVal (acc * 10 + digitVal c) s'
  end.

Definition commaOrPeriod (c : ascii) : bool :=
  Ascii.eqb c "."%char || Ascii.eqb c ","%char.

(** [parseNanoseconds(value, n)] on a fraction whose digits are [ds]: at
    most nine digits count, scaled up to nanoseconds. *)
Definition parseNanoseconds (ds : string) : Z :=
  let kept := String.substring 0 9 ds in
  digitsVal 0 kept * 10 ^ (9 - Z.of_nat (String.length kept)).

(** The special case after [stdZeroSecond]: a fractional second in the
    input although the layout has none. *)
Definition fraction (value : string) : Z * string :=
  match value with
  | String c0 (String c1 rest) =>
      if commaOrPeriod c0 && isDigitChar c1 then
        let (ds, rest') := span isDigitChar (String c1 rest) in
        (parseNanoseconds ds, rest')
      else (0, value)
  | _ => (0, value)
  end.

(** [stdISO8601ColonTZ]: ["Z"], or a sign, two digits, a colon, two digits.
    The minutes are read only when the hours were; a number that was not
    read counts as zero in the range tests, which come before the report
    of a mismatch. *)
Definition zone (value : string) : Failure + (Z * string) :=
  let hold := value in
  match value with
  | String sign value1 =>
      if Ascii.eqb sign "Z"%char then inr (0, value1)
      else
        match value1 with
        | String h0 (String h1 (String colon (String m0 (String m1 rest)))) =>
            if negb (Ascii.eqb colon ":"%char) then inl (newParseError "Z07:00" hold "")
            else
              let hour := getnum (String h0 (String h1 EmptyString)) true in
              let min :=
                match hour with
                | Some _ => getnum (String m0 (String m1 EmptyString)) true
                | None => None
                end in
              let hr := from_option fst 0 hour in
              let mm := from_option fst 0 min in
              if 60 <? mm then
                inl (newParseError "Z07:00" rest (out_of_range "time zone offset minute"))
              else if 24 <? hr then
                inl (newParseError "Z07:00" rest (out_of_range "time zone offset hour"))
              else
                let zoneOffset := (hr * 60 + mm) * 60 in
                match min with
                | None => inl (newParseError "Z07:00" hold "")
                | Some _ =>
                    if Ascii.eqb sign "+"%char then inr (zoneOffset, rest)
                    else if Ascii.eqb sign "-"%char then inr (- zoneOffset, rest)
                    else inl (newParseError "Z07:00" hold "")
                end
        | _ => inl (newParseError "Z07:00" hold "")
        end
  | EmptyString => inl (newParseError "Z07:00" hold "")
  end.

(** What follows the seconds: an optional fraction, the zone, and nothing
    more. *)
Definition finish (value : string) : Failure + (Z * Z) :=
  let (nsec, value) := fraction value in
  match zone value with
  | inl e => inl e
  | inr (zoneOffset, value) =>
      match value with
      | EmptyString => inr (nsec, zoneOffset)
      | String _ _ => inl (newParseError "" value (": extra text: " +:+ quote value))
      end
  end.

Definition isLeap (year : Z) : bool :=
  (year mod 4 =? 0) && (negb (year mod 100 =? 0) || (year mod 400 =? 0)).

Definition daysIn (month year : Z) : Z :=
  if (month =? 2) && isLeap year then 29
  else if month =? 2 then 28
  else if (month =? 4) || (month =? 6) || (month =? 9) || (month =? 11) then 30
  else 31.

(** The clock part of the layout, ["T15:04:05Z07:00"], and the end of the
    input. A literal of the layout that is not found is reported with the
    input at that place, a number that cannot be read with the input
    where it was due ([hold]). *)
Definition parse_clock (value : string) : Failure + (Z * Z * Z * Z * Z) :=
  match skip "T"%char value with
  | None => inl (newParseError "T" value "")
  | Some value =>
  match getnum value false with
  | None => inl (newParseError "15" value "")
  | Some (hour, value) =>
  if (hour <? 0) || (24 <=? hour) then inl (newParseError "15" value (out_of_range "hour")) else
  match skip ":"%char value with
  | None => inl (newParseError ":" value "")
  | Some value =>
  match getnum value true with
  | None => inl (newParseError "04" value "")
  | Some (min, value) =>
  if (min <? 0) || (60 <=? min) then inl (newParseError "04" value (out_of_range "minute")) else
  match skip ":"%char value with
  | None => inl (newParseError ":" value "")
  | Some value =>
  match getnum value true with
  | None => inl (newParseError "05" value "")
  | Some (sec, value) =>
  if (sec <? 0) || (60 <=? sec) then inl (newParseError "05" value (out_of_range "second")) else
  match finish value with
  | inl e => inl e
  | inr (nsec, zoneOffset) => inr (hour, min, sec, nsec, zoneOffset)
  end end end end end end end.

(** [time.Parse(time.RFC3339, value)]. The day is checked against the
    month only when the whole input has been read. *)
Definition Parse_RFC3339 (avalue : string) : error + Time :=
  let alayout := RFC3339 in
  let value := avalue in
  match getyear value with
  | None => inl (ParseError alayout avalue (newParseError "2006" value ""))
  | Some (year, value) =>
  match skip "-"%char value with
  | None => inl (ParseError alayout avalue (newParseError "-" value ""))
  | Some value =>
  match getnum value true with
  | None => inl (ParseError alayout avalue (newParseError "01" value ""))
  | Some (month, value) =>
  if (month <=? 0) || (12 <? month)
  then inl (ParseError alayout avalue (newParseError "01" value (out_of_range "month"))) else
  match skip "-"%char value with
  | None => inl (ParseError alayout avalue (newParseError "-" value ""))
  | Some value =>
  match getnum value true with
  | None => inl (ParseError alayout avalue (newParseError "02" value ""))
  | Some (day, value) =>
  match parse_clock value with
  | inl e => inl (ParseError alayout avalue e)
  | inr (hour, min, sec, nsec, zoneOffset) =>
  if (day <? 1) || (daysIn month year <? day)
  then inl (ParseError alayout avalue (newParseError "" "" (out_of_range "day")))
  else inr (mkTime year month day hour min sec nsec zoneOffset)
  end end end end end end.

Arguments Parse_RFC3339 : simpl never.

End GoTime.

(** ** Package [main]: router, session gate and handlers *)
Module Main.

Import GoTime.

(** [type Environment int] with [Production = iota + 1] and [Development]. *)
Inductive Environment : Type := Production | Development.

Definition Environment_int (e : Environment) : Z :=
  match e with Production => 1 | Development => 2 end.

Definition StatusSeeOther : Z := 303.
Definition StatusTemporaryRedirect : Z := 307.
Definition StatusNotFound : Z := 404.
Definition StatusInternalServerError : Z := 500.

(** Modelled from the spec: [repo.Note] and [repo.NoteID]. The note
    repository file is not among the sources; section 3 of the
    specification lists the fields, and the handlers build a [NoteID] by
    converting a string. *)
Record Note : Type := mkNote {
  note_id : string;
  note_body : string;
  note_tags : list string;
  note_done : bool;
  note_created_at : Time;
}.

Definition NoteID : Type := string.

(** [type PageData struct { Notes []repo.Note }] *)
Record PageData : Type := mkPageData { Notes : list Note }.

(** One entry per method of the note repository that the handlers call,
    with the arguments of the call. *)
Inductive NoteCall : Type :=
| CallAdd (ctx : Ctx) (body tags : string)
| CallGet (ctx : Ctx) (id : NoteID)
| CallGetAllSince (ctx : Ctx) (since : Time)
| CallSearch (ctx : Ctx) (query : string)
| CallToggleDone (ctx : Ctx) (id : NoteID)
| CallDelete (ctx : Ctx) (id : NoteID).

(** The note repository as the handlers use it, over a database [DB]. *)
Class NoteRepo (DB : Type) : Type := {
  NoteRepo_Add : Ctx -> string -> string -> M DB (option error);
  NoteRepo_Get : Ctx -> NoteID -> M DB (Note * option error);
  NoteRepo_GetAllSince : Ctx -> Time -> M DB (list Note * option error);
  NoteRepo_Search : Ctx -> string -> M DB (list Note * option error);
  NoteRepo_ToggleDone : Ctx -> NoteID -> M DB (option error);
  NoteRepo_Delete : Ctx -> NoteID -> M DB (option error);
}.

(** The principal repository of the external [go-utils] package, imported
    as [urepo]: [Get(ctx, Auth0ID) (User, error)]. *)
Class PrincipalRepo (DB : Type) : Type := {
  urepo_User : Type;
  urepo_User_zero : urepo_User;
  urepo_Get : Ctx -> string -> M DB (urepo_User * option error);
}.

(** Values a session can hold ([map[interface{}]interface{}] restricted to
    string keys). *)
Inductive Value : Type :=
| VString (s : string)
| VInt (z : Z)
| VBool (b : bool).

(** The body of a cookie as the cookie store sees it: it either fails to
    decode (bad encoding, bad signature, expired) or yields the stored
    values. *)
Inductive CookieBody : Type :=
| Undecodable (e : error)
| Decodes (values : gmap string Value).

(** [*http.Request], as far as the handlers look at it. [URL_Path] is the
    path after the router has insisted on its canonical form; [Form] gives
    the first value of each field once [ParseForm] has run; [Vars] is what
    [mux.Vars] returns. *)
Record Request : Type := mkRequest {
  URL_Path : string;
  RequestURI : string;
  Form : gmap string string;
  Cookies : gmap string CookieBody;
  Context : Ctx;
  Vars : gmap string string;
}.

Definition setVars (r : Request) (vars : gmap string string) : Request :=
  mkRequest (URL_Path r) (RequestURI r) (Form r) (Cookies r) (Context r) vars.

(** Indexing a [map[string]string]: the zero value for a missing key. *)
Definition index (m : gmap string string) (k : string) : string :=
  default "" (m !! k).

(** [r.FormValue(key)] *)
Definition FormValue (r : Request) (key : string) : string := index (Form r) key.

(** [*sessions.Session] *)
Record Session : Type := mkSession {
  Values : gmap string Value;
  IsNew : bool;
}.

(** [Store.Get(r, name)] of the cookie store: always a session; a fresh
    empty one, with the decoding error, when the cookie does not decode. *)
Definition Store_Get (r : Request) (name : string) : Session * option error :=
  match Cookies r !! name with
  | None => (mkSession ∅ true, None)
  | Some (Undecodable e) => (mkSession ∅ true, Some e)
  | Some (Decodes values) => (mkSession values false, None)
  end.

(** The type assertion [v.(string)] on a map entry, comma-ok form. *)
Definition assert_string (v : option Value) : string * bool :=
  match v with
  | Some (VString s) => (s, true)
  | _ => ("", false)
  end.

(** What a request makes the process do, in order. A call on the
    [http.ResponseWriter] is recorded with the arguments the program passes:
    [EvRedirect] is a call of [http.Redirect], [EvError] a call of
    [http.Error], [EvExecute] a template executed with the writer as its
    output. *)
Inductive Event : Type :=
| EvStderr (line : string)
| EvLogPrintln (line : string)
| EvLogPrintf (values : gmap string Value)
| EvPrincipalGet (ctx : Ctx) (id : string)
| EvNote (call : NoteCall)
| EvRedirect (url : string) (code : Z)
| EvError (body : string) (code : Z)
| EvExecute (tmpl : string) (data : PageData)
| EvServeContent (name : string) (modTime : Z)
| EvPanic
| EvNotFound
| EvAuthentication (handler : string).

(** The database handle [DB] and the record of what happened. *)
Record World (DB : Type) : Type := mkWorld {
  w_db : DB;
  w_trace : list Event;
}.
Arguments mkWorld {DB} _ _.
Arguments w_db {DB} _.
Arguments w_trace {DB} _.

(** [*template.Template]: executing it against the page data may fail. *)
Record Template : Type := mkTemplate {
  Execute : PageData -> option error;
}.

(** The package-level variables set up by [main] before serving, and the
    parts of the operating environment the handlers consult. *)
Record Globals : Type := mkGlobals {
  ENV : Environment;
  Templates : gmap string Template;
  ParseFiles : list string -> error + Template;
  os_Open : string -> option (option Z);
  time_Now : Time;
}.

Section Handlers.
Context {DB : Type} `{NoteRepo DB} `{PrincipalRepo DB}.
Variable G : Globals.

Definition emit (e : Event) : M (World DB) unit :=
  fun w => (tt, mkWorld (w_db w) (w_trace w ++ [e])).

Definition on_db {A : Type} (m : M DB A) : M (World DB) A :=
  fun w => let (a, db) := m (w_db w) in (a, mkWorld db (w_trace w)).

Definition Handler : Type := Request -> M (World DB) unit.

(** Calls on [repo.NewNoteRepo(DB)]. *)
Definition noteRepo_Add ctx body tags :=
  run emit (EvNote (CallAdd ctx body tags)) then on_db (NoteRepo_Add ctx body tags).
Definition noteRepo_Get ctx id :=
  run emit (EvNote (CallGet ctx id)) then on_db (NoteRepo_Get ctx id).
Definition noteRepo_GetAllSince ctx t :=
  run emit (EvNote (CallGetAllSince ctx t)) then on_db (NoteRepo_GetAllSince ctx t).
Definition noteRepo_Search ctx q :=
  run emit (EvNote (CallSearch ctx q)) then on_db (NoteRepo_Search ctx q).
Definition noteRepo_ToggleDone ctx id :=
  run emit (EvNote (CallToggleDone ctx id)) then on_db (NoteRepo_ToggleDone ctx id).
Definition noteRepo_Delete ctx id :=
  run emit (EvNote (CallDelete ctx id)) then on_db (NoteRepo_Delete ctx id).

(** Call on [urepo.NewUserRepo(DB)]. *)
Definition userRepo_Get ctx id :=
  run emit (EvPrincipalGet ctx id) then on_db (urepo_Get ctx id).

(** [http.Redirect(w, r, url, code)], recorded as called. For a target
    without scheme and host [net/http] cleans the path before it writes the
    [Location] header; [/login] and [/] are sent as they are passed. *)
Definition http_Redirect (url : string) (code : Z) : M (World DB) unit :=
  emit (EvRedirect url code).

(** [http.Error(w, body, code)], recorded as called. The client receives
    [code] as the status when nothing was written to [w] before the call;
    after a template has begun to write, the status is already sent and
    [body] is appended to what was written. *)
Definition http_Error (body : string) (code : Z) : M (World DB) unit :=
  emit (EvError body code).

(** [func handleUnexpectedError(w http.ResponseWriter, err error)] *)
Definition handleUnexpectedError (err : error) : M (World DB) unit :=
  run http_Error "There was an unexpected error" StatusInternalServerError then
  emit (EvLogPrintln (error_msg err)).

(** [func RenderTemplate(w http.ResponseWriter, tmpl string, data interface{})].
    A missing cached template and a failing [template.Must] both panic. *)
Definition RenderTemplate (tmpl : string) (data : PageData) : M (World DB) unit :=
  match ENV G with
  | Production =>
      match Templates G !! tmpl with
      | None => emit EvPanic
      | Some t =>
          run emit (EvExecute tmpl data) then
          match Execute t data with
          | Some err => handleUnexpectedError err
          | None => ret tt
          end
      end
  | Development =>
      match ParseFiles G ["views/" +:+ tmpl +:+ ".html"; "views/_header.html"; "views/_footer.html"] with
      | inl _ => emit EvPanic
      | inr template =>
          run emit (EvExecute tmpl data) then
          match Execute template data with
          | Some err => handleUnexpectedError err
          | None => ret tt
          end
      end
  end.

(** [func HomeSinceHandler(w http.ResponseWriter, r *http.Request)] *)
Definition HomeSinceHandler : Handler := fun r =>
  let vars := Vars r in
  let date := index vars "date" in
  match Parse_RFC3339 (date +:+ "T00:00:00+11:00") with
  | inl err => handleUnexpectedError err
  | inr parsedTime =>
      let* res := noteRepo_GetAllSince (Context r) parsedTime in
      match res with
      | (_, Some err) => handleUnexpectedError err
      | (notes, None) =>
          let pageData := mkPageData notes in
          RenderTemplate "home" pageData
      end
  end.

(** [func HomeHandler(w http.ResponseWriter, r *http.Request)] *)
Definition HomeHandler : Handler := fun r =>
  let* res := noteRepo_GetAllSince (Context r) (time_Now G) in
  match res with
  | (_, Some err) => handleUnexpectedError err
  | (notes, None) =>
      let pageData := mkPageData notes in
      RenderTemplate "home" pageData
  end.

(** [func SubmitHandler(w http.ResponseWriter, r *http.Request)] *)
Definition SubmitHandler : Handler := fun r =>
  RenderTemplate "submit" (mkPageData []).

(** [func ViewNoteHandler(w http.ResponseWriter, r *http.Request)] *)
Definition ViewNoteHandler : Handler := fun r =>
  let vars := Vars r in
  let noteId := index vars "noteId" in
  let* res := noteRepo_Get (Context r) noteId in
  match res with
  | (_, Some err) => handleUnexpectedError err
  | (note, None) =>
      let pageData := mkPageData [note] in
      RenderTemplate "view" pageData
  end.

(** [func ToggleNoteHandler(w http.ResponseWriter, r *http.Request)] *)
Definition ToggleNoteHandler : Handler := fun r =>
  let id := FormValue r "id" in
  let* err := noteRepo_ToggleDone (Context r) id in
  match err with
  | Some err => handleUnexpectedError err
  | None => http_Redirect ("/#" +:+ id) StatusSeeOther
  end.

(** [func DeleteNoteHandler(w http.ResponseWriter, r *http.Request)] *)
Definition DeleteNoteHandler : Handler := fun r =>
  let vars := Vars r in
  let id := index vars "id" in
  let* err := noteRepo_Delete (Context r) id in
  match err with
  | Some err => handleUnexpectedError err
  | None => http_Redirect "/" StatusSeeOther
  end.

(** [func AddNoteHandler(w http.ResponseWriter, r *http.Request)] *)
Definition AddNoteHandler : Handler := fun r =>
  let body := FormValue r "body" in
  let tags := FormValue r "tags" in
  let* err := noteRepo_Add (Context r) body tags in
  match err with
  | Some err => handleUnexpectedError err
  | None => http_Redirect "/" StatusSeeOther
  end.

(** [func SearchHandler(w http.ResponseWriter, r *http.Request)] *)
Definition SearchHandler : Handler := fun r =>
  let query := FormValue r "query" in
  let* res := noteRepo_Search (Context r) query in
  match res with
  | (_, Some err) => handleUnexpectedError err
  | (notes, None) =>
      let pageData := mkPageData notes in
      RenderTemplate "home" pageData
  end.

(** [func serveResources(w http.ResponseWriter, r *http.Request)] *)
Definition serveResources : Handler := fun r =>
  match os_Open G (URL_Path r) with
  | None => http_Error (RequestURI r) StatusNotFound
  | Some None => http_Error (RequestURI r) StatusNotFound
  | Some (Some modTime) => emit (EvServeContent (URL_Path r) modTime)
  end.

(** [func getUserFromSession(r *http.Request) (urepo.User, bool)].
    The error of [Store.Get] is printed and otherwise ignored; the error
    of [userRepo.Get] is assigned to the blank identifier. *)
Definition getUserFromSession (r : Request) : M (World DB) (urepo_User * bool) :=
  let (sessionState, err) := Store_Get r "auth" in
  run (match err with
       | Some err => emit (EvStderr (error_msg err))
       | None => ret tt
       end) then
  let (userId, ok) := assert_string (Values sessionState !! "user_id") in
  run emit (EvLogPrintf (Values sessionState)) then
  if ok then
    let* res := userRepo_Get (Context r) userId in
    let (user, _) := res in
    ret (user, true)
  else
    ret (urepo_User_zero, false).

(** [func ensureAuthed(next http.Handler) http.Handler] *)
Definition ensureAuthed (next : Handler) : Handler := fun r =>
  let* res := getUserFromSession r in
  let (_, ok) := res in
  if ok then next r
  else http_Redirect "/login" StatusTemporaryRedirect.

(** Handlers of the external [authentication] package. *)
Definition authentication_LoginHandler : Handler :=
  fun r => emit (EvAuthentication "LoginHandler").
Definition authentication_Logout : Handler :=
  fun r => emit (EvAuthentication "Logout").
Definition authentication_CallbackHandler : Handler :=
  fun r => emit (EvAuthentication "CallbackHandler").

(** *** The router built in [main] *)

(** Path templates of [gorilla/mux]: a literal path, a path prefix, or a
    path with one variable [{name:class+}] between two literals. *)
Inductive Pattern : Type :=
| Path (tpl : string)
| PathPrefix (tpl : string)
| PathVar (before name : string) (class : ascii -> bool) (after : string).

(** The default variable pattern, [[^/]+], and [[0-9]+]. *)
Definition notSlash (c : ascii) : bool := negb (Ascii.eqb c "/"%char).

Definition Pattern_match (p : Pattern) (path : string) : option (gmap string string) :=
  match p with
  | Path tpl => if String.eqb path tpl then Some ∅ else None
  | PathPrefix tpl =>
      match strip_prefix tpl path with Some _ => Some ∅ | None => None end
  | PathVar before name class after =>
      match strip_prefix before path with
      | None => None
      | Some rest =>
          let (v, rest') := span class rest in
          if String.eqb v "" then None
          else if String.eqb rest' after then Some {[ name := v ]}
          else None
      end
  end.

(** Routes are tried in the order of registration. *)
Fixpoint Router_Match (routes : list (Pattern * Handler)) (path : string)
  : option (Handler * gmap string string) :=
  match routes with
  | [] => None
  | (p, h) :: routes' =>
      match Pattern_match p path with
      | Some vars => Some (h, vars)
      | None => Router_Match routes' path
      end
  end.

(** [r := mux.NewRouter()] and its three open routes. *)
Definition r_routes : list (Pattern * Handler) :=
  [ (Path "/login", authentication_LoginHandler);
    (Path "/logout", authentication_Logout);
    (Path "/callback", authentication_CallbackHandler) ].

(** [authedRouter := r.NewRoute().Subrouter()] and its routes. *)
Definition authedRouter_routes : list (Pattern * Handler) :=
  [ (Path "/", HomeHandler);
    (PathVar "/t/" "date" notSlash "", HomeSinceHandler);
    (Path "/submit", SubmitHandler);
    (Path "/search", SearchHandler);
    (PathPrefix "/public/", serveResources);
    (Path "/note", AddNoteHandler);
    (PathVar "/note/" "id" isDigitChar "/delete", DeleteNoteHandler);
    (Path "/note/toggle", ToggleNoteHandler) ].

(** The handler of the server: the open routes first, then the
    sub-router, whose middleware [ensureAuthed] wraps whatever it
    matches; anything else is the router's not-found answer. *)
Definition ServeHTTP : Handler := fun r =>
  match Router_Match r_routes (URL_Path r) with
  | Some (h, vars) => h (setVars r vars)
  | None =>
      match Router_Match authedRouter_routes (URL_Path r) with
      | Some (h, vars) => ensureAuthed h (setVars r vars)
      | None => emit EvNotFound
      end
  end.

End Handlers.

(** *** Reading a trace *)

Definition is_note_call (e : Event) : option NoteCall :=
  match e with EvNote c => Some c | _ => None end.

(** The calls made on the note repository, in order. *)
Definition note_calls (tr : list Event) : list NoteCall :=
  omap is_note_call tr.

(** The calls that write to the [http.ResponseWriter], in order. *)
Definition is_response (e : Event) : bool :=
  match e with
  | EvRedirect _ _ | EvError _ _ | EvExecute _ _ | EvServeContent _ _
  | EvNotFound | EvAuthentication _ => true
  | _ => false
  end.

Definition response (tr : list Event) : list Event := List.filter is_response tr.

(** The world a handler leaves behind when started in the world [w]. *)
Definition run_from {DB : Type} (m : M (World DB) unit) (w : World DB) : World DB :=
  snd (m w).

(** What [getUserFromSession] prints and logs before it decides. *)
Definition session_log (r : Request) : list Event :=
  let (sessionState, err) := Store_Get r "auth" in
  match err with
  | Some err => [EvStderr (error_msg err)]
  | None => []
  end ++ [EvLogPrintf (Values sessionState)].

(** The verdict of the gate: whether the session holds a string under
    ["user_id"]; it is the second result of [getUserFromSession]. *)
Definition verdict (r : Request) : bool :=
  snd (assert_string (Values (fst (Store_Get r "auth")) !! "user_id")).

(** The session cookie is absent, does not decode, or decodes to values
    without a string under ["user_id"]. *)
Definition no_principal_id (r : Request) : Prop :=
  match Cookies r !! "auth" with
  | None => True
  | Some (Undecodable _) => True
  | Some (Decodes values) => forall s, values !! "user_id" <> Some (VString s)
  end.

(** The reading of the gate under which a session whose principal has
    left the store is turned away at the door: asked of the gate in front
    of [next], for the request [r] arriving in the world [w]. *)
Definition rejects_missing_principal {DB : Type} `{NoteRepo DB} `{PrincipalRepo DB}
    (next : Handler) (r : Request) (w : World DB) : Prop :=
  forall id,
    assert_string (Values (fst (Store_Get r "auth")) !! "user_id") = (id, true) ->
    snd (fst (urepo_Get (Context r) id (w_db w))) <> None ->
    response (w_trace (run_from (ensureAuthed next r) w)) =
    (response (w_trace w) ++ [EvRedirect "/login" StatusTemporaryRedirect])%list.

(** The session of [r] resolves to a principal of the store [db]: it
    holds a string under ["user_id"] and the principal repository finds
    the principal of that name. *)
Definition resolves_to_principal {DB : Type} `{PrincipalRepo DB}
    (r : Request) (db : DB) : Prop :=
  exists id,
    assert_string (Values (fst (Store_Get r "auth")) !! "user_id") = (id, true) /\
    snd (fst (urepo_Get (Context r) id db)) = None.

(** The reading of the gate under which every session that does not
    resolve to a principal is turned away: asked of the server for the
    request [r] arriving in the world [w], on a path of the gated
    sub-router. *)
Definition turns_away_unresolved_session {DB : Type} `{NoteRepo DB} `{PrincipalRepo DB}
    (G : Globals) (r : Request) (w : World DB) : Prop :=
  forall (h : Handler) (vars : gmap string string),
    Router_Match (r_routes (DB:=DB)) (URL_Path r) = None ->
    Router_Match (authedRouter_routes G) (URL_Path r) = Some (h, vars) ->
    ~ resolves_to_principal r (w_db w) ->
    response (w_trace (run_from (ServeHTTP G r) w)) =
      (response (w_trace w) ++ [EvRedirect "/login" StatusTemporaryRedirect])%list /\
    note_calls (w_trace (run_from (ServeHTTP G r) w)) = note_calls (w_trace w).

(** The call of [http.Error] that [handleUnexpectedError] makes, whatever
    the error: the answer to a failure of the store. *)
Definition generic_failure : Event :=
  EvError "There was an unexpected error" StatusInternalServerError.

(** The reading of [HomeSinceHandler] under which a date that does not
    parse is reported to the caller as a validation error, that is, with
    an answer of its own and not with the generic failure that answers a
    failure of the store; no call is made on the note repository. *)
Definition reports_validation_error {DB : Type} `{NoteRepo DB} `{PrincipalRepo DB}
    (G : Globals) (r : Request) (w : World DB) : Prop :=
  forall err,
    GoTime.Parse_RFC3339 (index (Vars r) "date" +:+ "T00:00:00+11:00") = inl err ->
    (exists e,
       response (w_trace (run_from (HomeSinceHandler G r) w)) =
         (response (w_trace w) ++ [e])%list /\
       e <> generic_failure) /\
    note_calls (w_trace (run_from (HomeSinceHandler G r) w)) = note_calls (w_trace w).

(** A note identifier made of one or more decimal digits. *)
Definition numeric (id : string) : bool :=
  negb (String.eqb id "") && all_chars isDigitChar id.

(** Every [Delete] on the note repository carries a numeric identifier. *)
Definition numeric_delete (e : Event) : Prop :=
  match e with
  | EvNote (CallDelete _ id) => numeric id = true
  | _ => True
  end.

(** What [HomeSinceHandler] appends to the date before parsing. *)
Definition since_suffix : string := "T00:00:00+11:00".

(** The path value read as a calendar date, as the specification words it: ten
    bytes [YYYY-MM-DD], all digits but the two hyphens, naming a month from
    1 to 12 and a day that this month has in this year. *)
Definition calendar_date (date : string) : option (Z * Z * Z) :=
  match date with
  | String y0 (String y1 (String y2 (String y3 (String s1 (String m0 (String m1
      (String s2 (String d0 (String d1 EmptyString))))))))) =>
      if isDigitChar y0 && isDigitChar y1 && isDigitChar y2 && isDigitChar y3
         && Ascii.eqb s1 "-" && isDigitChar m0 && isDigitChar m1
         && Ascii.eqb s2 "-" && isDigitChar d0 && isDigitChar d1
      then
        let year := ((digitVal y0 * 10 + digitVal y1) * 10 + digitVal y2) * 10 + digitVal y3 in
        let month := digitVal m0 * 10 + digitVal m1 in
        let day := digitVal d0 * 10 + digitVal d1 in
        if (1 <=? month) && (month <=? 12) && (1 <=? day) && (day <=? daysIn month year)
        then Some (year, month, day)
        else None
      else None
  | _ => None
  end%Z.

(** Midnight of a calendar date on a clock eleven hours ahead of UTC. *)
Definition midnight_plus11 (year month day : Z) : Time :=
  mkTime year month day 0 0 0 0 (11 * 3600).

(** *** Reading a trace, continued *)

(** The context a call on the note repository was made with. *)
Definition NoteCall_ctx (c : NoteCall) : Ctx :=
  match c with
  | CallAdd ctx _ _ | CallGet ctx _ | CallGetAllSince ctx _
  | CallSearch ctx _ | CallToggleDone ctx _ | CallDelete ctx _ => ctx
  end.

(** The calls that change note state. *)
Definition mutating (c : NoteCall) : bool :=
  match c with
  | CallAdd _ _ _ | CallToggleDone _ _ | CallDelete _ _ => true
  | _ => false
  end.

(** The paths of the three routes registered with a handler that changes
    note state. *)
Definition write_route (path : string) : Prop :=
  path = "/note" \/ path = "/note/toggle" \/
  exists id, numeric id = true /\ path = "/note/" +:+ id +:+ "/delete".

Definition is_principal_get (e : Event) : bool :=
  match e with EvPrincipalGet _ _ => true | _ => false end.

(** The look-ups made on the principal repository, in order. *)
Definition principal_gets (tr : list Event) : list Event :=
  List.filter is_principal_get tr.

(** Every call that leaves for a repository carries the context of the
    request being served. *)
Definition uses_request_ctx (r : Request) (e : Event) : Prop :=
  match e with
  | EvNote c => NoteCall_ctx c = Context r
  | EvPrincipalGet ctx _ => ctx = Context r
  | _ => True
  end.

(** A call that changes note state is made only on a write route. *)
Definition mutates_on_write_route (r : Request) (e : Event) : Prop :=
  match e with
  | EvNote c => mutating c = true -> write_route (URL_Path r)
  | _ => True
  end.

(** The note repository's [Get] is not called. *)
Definition no_note_Get (e : Event) : Prop :=
  match e with
  | EvNote (CallGet _ _) => False
  | _ => True
  end.

(** A call of [http.Error] passes either the fixed message with status
    500 or the request's own URI with status 404. *)
Definition opaque_error (r : Request) (e : Event) : Prop :=
  match e with
  | EvError body code =>
      (body = "There was an unexpected error" /\ code = StatusInternalServerError) \/
      (body = RequestURI r /\ code = StatusNotFound)
  | _ => True
  end.

(** A call of [http.Redirect] passes [/login] with status 307, or status
    303 with [/] or, on the toggle route, with [/#] followed by the [id]
    form value of the request. *)
Definition known_redirect (r : Request) (e : Event) : Prop :=
  match e with
  | EvRedirect url code =>
      (url = "/login" /\ code = StatusTemporaryRedirect) \/
      (code = StatusSeeOther /\
       (url = "/" \/
        (URL_Path r = "/note/toggle" /\ url = "/#" +:+ FormValue r "id")))
  | _ => True
  end.

(** All of the above about one event. *)
Definition allowed (r : Request) (e : Event) : Prop :=
  uses_request_ctx r e /\ mutates_on_write_route r e /\ no_note_Get e /\
  opaque_error r e /\ known_redirect r e.

(** What a handler behind the gate adds to the trace: allowed events, at
    most one call on the note repository and no look-up of a principal. *)
Definition handled (r : Request) (added : list Event) : Prop :=
  Forall (allowed r) added /\
  (length (note_calls added) <= 1)%nat /\
  principal_gets added = [].

(** What serving a request adds to the trace: allowed events, at most one
    call on the note repository and at most one look-up of a principal. *)
Definition well_served (r : Request) (added : list Event) : Prop :=
  Forall (allowed r) added /\
  (length (note_calls added) <= 1)%nat /\
  (length (principal_gets added) <= 1)%nat.

(** The handler [h] only appends to the trace, and what it appends
    satisfies [Q]. *)
Definition adds {DB : Type} (Q : list Event -> Prop)
    (h : Request -> M (World DB) unit) (r : Request) : Prop :=
  forall w : World DB,
    exists added, w_trace (run_from (h r) w) = (w_trace w ++ added)%list /\ Q added.

(** The trace of serving one request from a fresh trace. *)
Definition served {DB : Type} `{NoteRepo DB} `{PrincipalRepo DB}
    (G : Globals) (r : Request) (db : DB) : list Event :=
  w_trace (run_from (ServeHTTP G r) (mkWorld db [])).

(** One element of a canonical path: not empty, without a slash, and
    neither [.] nor [..]. *)
Definition path_segment (s : string) : bool :=
  negb (String.eqb s "") && all_chars notSlash s
  && negb (String.eqb s ".") && negb (String.eqb s "..").

(** The patterns among [patterns] that match [path]. *)
Definition matching (patterns : list Pattern) (path : string) : list Pattern :=
  List.filter
    (fun p => match Pattern_match p path with Some _ => true | None => false end)
    patterns.

(** *** [cacheTemplates] *)

(** The character class [[a-zA-Z\/]] of the template pattern. *)
Definition isTemplateChar (c : ascii) : bool :=
  let n := nat_of_ascii c in
  ((97 <=? n) && (n <=? 122) || (65 <=? n) && (n <=? 90) || (n =? 47))%nat.

(** [re.MatchString(path)] for [re = regexp.MustCompile(`^[a-zA-Z\/]*\.html`)]:
    anchored at the start only; the class cannot take the dot, so the run of
    class bytes is followed at once by [.html]. *)
Definition re_MatchString (path : string) : bool :=
  let (_, rest) := span isTemplateChar path in
  match strip_prefix ".html" rest with
  | Some _ => true
  | None => false
  end.

(** [strings.TrimPrefix] *)
Definition TrimPrefix (s prefix : string) : string :=
  match strip_prefix prefix s with
  | Some rest => rest
  | None => s
  end.

(** The string without the given suffix, when it ends in it. *)
Fixpoint strip_suffix (suffix s : string) : option string :=
  if String.eqb s suffix then Some EmptyString
  else
    match s with
    | EmptyString => None
    | String c s' =>
        match strip_suffix suffix s' with
        | Some a => Some (String c a)
        | None => None
        end
    end.

(** [strings.TrimSuffix] *)
Definition TrimSuffix (s suffix : string) : string :=
  match strip_suffix suffix s with
  | Some rest => rest
  | None => s
  end.

(** [normalisedPath] in [cacheTemplates]. *)
Definition normalisedPath (path : string) : string :=
  TrimSuffix (TrimPrefix path "views/") ".html".

(** How process start-up can end: it goes on, [log.Fatal] ends it, or
    [template.Must] panics. *)
Inductive Boot (A : Type) : Type :=
| Booted (a : A)
| Fatal (msg : string)
| MustPanic (err : error).
Arguments Booted {A} _.
Arguments Fatal {A} _.
Arguments MustPanic {A} _.

(** The callback that [cacheTemplates] hands to [filepath.WalkDir], run
    over the visits the walk makes in order; each visit is a path and the
    error the walk reports for it, if any. The first error the callback
    returns ends the walk. *)
Fixpoint walkTemplates (parse : list string -> error + Template)
    (visits : list (string * option error)) (templates : gmap string Template)
  : Boot (gmap string Template) :=
  match visits with
  | [] => Booted templates
  | (path, Some err) :: _ => Fatal (error_msg err)
  | (path, None) :: visits' =>
      if re_MatchString path then
        match parse [path; "views/_header.html"; "views/_footer.html"] with
        | inl err => MustPanic err
        | inr t => walkTemplates parse visits' (<[normalisedPath path := t]> templates)
        end
      else walkTemplates parse visits' templates
  end.

(** [func cacheTemplates()]: the value assigned to [Templates]. *)
Definition cacheTemplates (parse : list string -> error + Template)
    (visits : list (string * option error)) : Boot (gmap string Template) :=
  walkTemplates parse visits ∅.

(** A handler that never lets a non-numeric identifier reach [Delete]. *)
Definition keeps_numeric {DB : Type} (h : Request -> M (World DB) unit)
    (r : Request) : Prop :=
  forall w : World DB,
    Forall numeric_delete (w_trace w) ->
    Forall numeric_delete (w_trace (run_from (h r) w)).

End Main.

(** ** A stand-in backend *)
Module Stub.

Import GoTime Main.

(** Modelled from the spec: the call-counting stub of section 8. It stands
    in for the note repository, whose file is not among the sources, and for the principal repository of the external package: it
    counts the calls on the note repository, answers each of them with the
    error it was set up with, and finds principals in a list by their
    identifier. *)
Record Backend : Type := mkBackend {
  store_calls : nat;
  store_error : option error;
  principals : list Repo.User;
}.

Definition Note_zero : Note := mkNote "" "" [] false (mkTime 1 1 1 0 0 0 0 0).

Definition tick : M Backend (option error) :=
  fun b => (store_error b,
            mkBackend (S (store_calls b)) (store_error b) (principals b)).

Global Instance Backend_NoteRepo : NoteRepo Backend := {|
  NoteRepo_Add _ _ _ := tick;
  NoteRepo_Get _ _ := let* e := tick in ret (Note_zero, e);
  NoteRepo_GetAllSince _ _ := let* e := tick in ret ([], e);
  NoteRepo_Search _ _ := let* e := tick in ret ([], e);
  NoteRepo_ToggleDone _ _ := tick;
  NoteRepo_Delete _ _ := tick;
|}.

Definition find_principal (ctx : Ctx) (id : string)
  : M Backend (Repo.User * option error) :=
  fun b =>
    match List.find (fun u => String.eqb (Repo.AuthId u) id) (principals b) with
    | Some u => ((u, None), b)
    | None => ((Repo.User_zero, Some Repo.pgx_ErrNoRows), b)
    end.

Global Instance Backend_PrincipalRepo : PrincipalRepo Backend := {|
  urepo_User := Repo.User;
  urepo_User_zero := Repo.User_zero;
  urepo_Get := find_principal;
|}.

(** A production process whose cached templates all render. *)
Definition globals : Globals :=
  mkGlobals Production
    {[ "home" := mkTemplate (fun _ => None);
       "submit" := mkTemplate (fun _ => None) ]}
    (fun _ => inl (Err "open views: no such file or directory"))
    (fun _ => None)
    (mkTime 2022 6 1 9 30 0 0 36000).

(** A backend that knows one principal and whose note repository works. *)
Definition backend : Backend :=
  mkBackend 0 None [Repo.mkUser 1 "ada" "auth0|ada"].

Definition world : World Backend := mkWorld backend [].

(** Requests: without a cookie, with a cookie that does not decode, with
    the cookie of the known principal, and with the cookie of a principal
    that is no longer in the store. *)
Definition request (path : string) (form : gmap string string)
    (cookies : gmap string CookieBody) : Request :=
  mkRequest path path form cookies (CtxRequest false) ∅.

Definition no_cookie : gmap string CookieBody := ∅.
Definition bad_cookie : gmap string CookieBody :=
  {[ "auth" := Undecodable (Err "securecookie: the value is not valid") ]}.
Definition ada_cookie : gmap string CookieBody :=
  {[ "auth" := Decodes {[ "user_id" := VString "auth0|ada" ]} ]}.
Definition gone_cookie : gmap string CookieBody :=
  {[ "auth" := Decodes {[ "user_id" := VString "auth0|gone" ]} ]}.

(** [/note/7/delete] as the router hands it to the handler. *)
Definition delete_seven (cookies : gmap string CookieBody) : Request :=
  setVars (request "/note/7/delete" ∅ cookies) {[ "id" := "7" ]}.

(** A backend whose note repository fails every call. *)
Definition broken_backend : Backend :=
  mkBackend 0 (Some (Err "connection refused")) [Repo.mkUser 1 "ada" "auth0|ada"].

(** The world of a request arriving while the note repository is down. *)
Definition broken_world : World Backend := mkWorld broken_backend [].

(** A [views] directory as [filepath.WalkDir] visits it, and a parser that
    accepts every file. *)
Definition views_walk : list (string * option error) :=
  [ ("views", None);
    ("views/_footer.html", None);
    ("views/_header.html", None);
    ("views/home.html", None);
    ("views/submit.html", None) ].

Definition parse_any (files : list string) : error + Template :=
  inr (mkTemplate (fun _ => None)).

(** What [cacheTemplates] leaves in [Templates] after that walk. *)
Definition cached_views : gmap string Template :=
  <[ "submit" := mkTemplate (fun _ => None) ]>
    (<[ "home" := mkTemplate (fun _ => None) ]> ∅).

End Stub.

(** * Properties of the principal store *)
Module RepoFacts.

Import Repo.
Local Open Scope list_scope.

Lemma auth_count_zero_existsb (a : string) (p : Pg) :
  auth_count a p = 0%nat <->
  existsb (fun u => String.eqb (AuthId u) a) (pg_rows p) = false.
Proof.
  unfold auth_count. induction (pg_rows p) as [|u rows IH]; simpl.
  - done.
  - destruct (String.eqb (AuthId u) a); simpl; [split; discriminate | exact IH].
Qed.

Lemma auth_count_pg_log (a : string) (c : DbCall) (p : Pg) :
  auth_count a (pg_log c p) = auth_count a p.
Proof. done. Qed.

(** What [Add] does to a database that answers. *)
Lemma Add_healthy (ctx : Ctx) (username authId : string) (p : Pg) :
  ctx_done ctx = false -> pg_up p = true ->
  Add ctx username authId p =
  (None, mkPg (pg_rows p ++ [mkUser (pg_next_id p) username authId])
              (N.succ (pg_next_id p)) true
              (pg_calls p ++ [CallExec ctx sql_add [SqlText username; SqlText authId]])).
Proof.
  intros Hctx Hup. unfold Add; simpl. unfold pg_Exec.
  rewrite Hctx, Hup; simpl. unfold pg_insert; simpl. by rewrite Hup.
Qed.

(** What [Exists] answers on a database that answers. *)
Lemma Exists_healthy (ctx : Ctx) (authId : string) (p : Pg) :
  ctx_done ctx = false -> pg_up p = true ->
  Exists ctx authId p =
  ((None, existsb (fun u => String.eqb (AuthId u) authId) (pg_rows p)),
   pg_log (CallQueryRow ctx sql_exists [SqlText authId]) p).
Proof.
  intros Hctx Hup. unfold Exists, bind; simpl. unfold pg_QueryRow.
  by rewrite Hctx, Hup.
Qed.

Lemma auth_count_after_Add (ctx : Ctx) (username authId a : string) (p : Pg) :
  ctx_done ctx = false -> pg_up p = true ->
  auth_count a (snd (Add ctx username authId p)) =
  (auth_count a p + (if String.eqb authId a then 1 else 0))%nat.
Proof.
  intros Hctx Hup. rewrite Add_healthy by done. simpl.
  unfold auth_count; simpl. rewrite List.filter_app, length_app; simpl.
  by destruct (String.eqb authId a).
Qed.

Lemma Add_keeps_unique_iff (ctx : Ctx) (username authId : string) (p : Pg) :
  ctx_done ctx = false -> pg_up p = true -> unique_auth p ->
  unique_auth (snd (Add ctx username authId p)) <-> auth_count authId p = 0%nat.
Proof.
  intros Hctx Hup Huniq. split.
  - intros Hafter. specialize (Hafter authId).
    rewrite auth_count_after_Add in Hafter by done.
    rewrite String.eqb_refl in Hafter. lia.
  - intros Hzero a. rewrite auth_count_after_Add by done.
    destruct (String.eqb authId a) eqn:E.
    + apply String.eqb_eq in E; subst a. lia.
    + specialize (Huniq a). lia.
Qed.

Lemma pg_one_unique : unique_auth pg_one.
Proof.
  intros a. unfold auth_count. cbn [pg_one pg_rows List.filter AuthId].
  destruct (String.eqb "auth0|ada" a); simpl; lia.
Qed.

(** C10. Whenever [Get] returns an error, the [User] next to it is the
    zero value [User{}]; when it returns no error, the [ID] field of the
    [User] is the identifier that was asked for. This holds over every
    connection pool. *)
Theorem Get_zero_on_error_id_on_success
  {P : Type} `{Pool P} (ctx : Ctx) (id : N) (p : P) :
  match fst (Get ctx id p) with
  | (Some _, user) => user = User_zero
  | (None, user) => ID user = id
  end.
Proof.
  unfold Get, bind, ret.
  destruct (pool_QueryRow CtxTODO sql_get [SqlUint id] p) as [[err|cols] p']; done.
Qed.

(** Both outcomes of [Get] occur. *)
Example Get_found :
  fst (Get (CtxRequest false) 1 pg_one) = (None, mkUser 1 "ada" "auth0|ada").
Proof. reflexivity. Qed.

Example Get_missing :
  fst (Get (CtxRequest false) 9 pg_one) = (Some pgx_ErrNoRows, User_zero).
Proof. reflexivity. Qed.

(** The context a repository operation hands to the driver. *)
Lemma Get_call (ctx : Ctx) (id : N) (p : Pg) :
  pg_calls (snd (Get ctx id p)) =
  pg_calls p ++ [CallQueryRow CtxTODO sql_get [SqlUint id]].
Proof.
  unfold Get, bind, ret; simpl. unfold pg_QueryRow; simpl.
  destruct (negb (pg_up p)); [done|].
  by destruct (pg_select sql_get [SqlUint id] p).
Qed.

Lemma Exists_call (ctx : Ctx) (authId : string) (p : Pg) :
  pg_calls (snd (Exists ctx authId p)) =
  pg_calls p ++ [CallQueryRow ctx sql_exists [SqlText authId]].
Proof.
  unfold Exists, bind, ret; simpl. unfold pg_QueryRow.
  destruct (ctx_done ctx); [done|].
  destruct (negb (pg_up p)); [done|].
  by destruct (pg_select sql_exists [SqlText authId] p).
Qed.

Lemma Add_call (ctx : Ctx) (username authId : string) (p : Pg) :
  pg_calls (snd (Add ctx username authId p)) =
  pg_calls p ++ [CallExec ctx sql_add [SqlText username; SqlText authId]].
Proof.
  unfold Add; simpl. unfold pg_Exec.
  destruct (ctx_done ctx); [done|].
  by destruct (negb (pg_up p)).
Qed.

(** C4, evaluated where it fails. With the context of a request that has
    been cancelled, [Exists] and [Add] hand that context to the driver and
    come back with the cancellation error, but [Get] hands over
    [context.TODO()]: its query runs to completion and returns the row. *)
Theorem Get_does_not_use_its_ctx :
  let ctx := CtxRequest true in
  Get ctx 1 pg_one =
    ((None, mkUser 1 "ada" "auth0|ada"),
     mkPg (pg_rows pg_one) 2 true [CallQueryRow CtxTODO sql_get [SqlUint 1]]) /\
  call_ctx <$> pg_calls (snd (Get ctx 1 pg_one)) = [CtxTODO] /\
  fst (Exists ctx "auth0|ada" pg_one) = (Some context_Canceled, false) /\
  call_ctx <$> pg_calls (snd (Exists ctx "auth0|ada" pg_one)) = [ctx] /\
  fst (Add ctx "bob" "auth0|bob" pg_one) = Some context_Canceled /\
  call_ctx <$> pg_calls (snd (Add ctx "bob" "auth0|bob" pg_one)) = [ctx].
Proof. repeat split. Qed.

(** C5. On a table that has at most one row per [auth_id], and while the
    database answers: [Add] is a plain insert (it succeeds and the number
    of rows with that [auth_id] grows by one whatever was there); the
    invariant survives the [Add] exactly when [Exists] would have answered
    no; a caller that checks [Exists] first keeps the invariant and ends
    with exactly one row for the [auth_id]; and since check and insert are
    separate calls, two registrations whose checks both precede the inserts
    both see no row and leave two. *)
Theorem unique_auth_only_with_Exists_before_Add
  (ctx : Ctx) (username username2 authId : string) (p : Pg) :
  ctx_done ctx = false -> pg_up p = true -> unique_auth p ->
  (fst (Add ctx username authId p) = None /\
   auth_count authId (snd (Add ctx username authId p)) = S (auth_count authId p)) /\
  (unique_auth (snd (Add ctx username authId p)) <->
   fst (Exists ctx authId p) = (None, false)) /\
  (unique_auth (snd (checked_Add ctx username authId p)) /\
   auth_count authId (snd (checked_Add ctx username authId p)) = 1%nat) /\
  (fst (Exists ctx authId p) = (None, false) ->
   fst (racing_registrations ctx username username2 authId p) = (false, false) /\
   auth_count authId (snd (racing_registrations ctx username username2 authId p)) = 2%nat /\
   ~ unique_auth (snd (racing_registrations ctx username username2 authId p))).
Proof.
  intros Hctx Hup Huniq.
  assert (Hex : fst (Exists ctx authId p) = (None, false) <-> auth_count authId p = 0%nat).
  { rewrite Exists_healthy by done. simpl. rewrite auth_count_zero_existsb.
    split; [congruence | by intros ->]. }
  split; [|split; [|split]].
  - split; [by rewrite Add_healthy|].
    rewrite auth_count_after_Add by done. rewrite String.eqb_refl. lia.
  - rewrite Hex. by apply Add_keeps_unique_iff.
  - unfold checked_Add, bind. rewrite Exists_healthy by done.
    destruct (existsb _ _) eqn:E; cbn [ret snd fst].
    + split; [exact Huniq|].
      rewrite auth_count_pg_log.
      assert (auth_count authId p <> 0%nat).
      { rewrite auth_count_zero_existsb. congruence. }
      specialize (Huniq authId). lia.
    + apply auth_count_zero_existsb in E.
      set (p1 := pg_log _ p).
      assert (Hup1 : pg_up p1 = true) by done.
      assert (Huniq1 : unique_auth p1) by done.
      split.
      * by apply Add_keeps_unique_iff.
      * rewrite auth_count_after_Add by done. rewrite String.eqb_refl.
        unfold p1. rewrite auth_count_pg_log. lia.
  - intros Hno. apply Hex in Hno.
    assert (E : existsb (fun u => String.eqb (AuthId u) authId) (pg_rows p) = false)
      by by apply auth_count_zero_existsb.
    unfold racing_registrations, bind.
    rewrite Exists_healthy by done.
    set (p1 := pg_log _ p).
    rewrite (Exists_healthy ctx authId p1) by done.
    set (p2 := pg_log _ p1).
    replace (pg_rows p1) with (pg_rows p) by done.
    rewrite E; cbn [snd fst].
    rewrite (Add_healthy ctx username authId p2) by done.
    set (p3 := mkPg _ _ _ _).
    rewrite (Add_healthy ctx username2 authId p3) by done.
    cbn [snd fst ret].
    match goal with
    | |- context [auth_count authId ?q] =>
        assert (Hcount : auth_count authId q = 2%nat)
    end.
    { unfold auth_count in *. unfold p3, p2, p1. cbn [pg_rows pg_log].
      rewrite !List.filter_app, !length_app. cbn [List.filter AuthId].
      rewrite String.eqb_refl. cbn [length]. lia. }
    split; [done|]. split; [exact Hcount|].
    intros Hbad. specialize (Hbad authId). rewrite Hcount in Hbad. lia.
Qed.

Lemma unique_auth_only_with_Exists_before_Add_witness :
  let ctx := CtxRequest false in
  (ctx_done ctx = false /\ pg_up pg_one = true /\ unique_auth pg_one) /\
  (fst (Add ctx "bob" "auth0|bob" pg_one) = None /\
   auth_count "auth0|bob" (snd (Add ctx "bob" "auth0|bob" pg_one)) = 1%nat) /\
  (unique_auth (snd (Add ctx "bob" "auth0|bob" pg_one)) <->
   fst (Exists ctx "auth0|bob" pg_one) = (None, false)) /\
  (unique_auth (snd (checked_Add ctx "bob" "auth0|bob" pg_one)) /\
   auth_count "auth0|bob" (snd (checked_Add ctx "bob" "auth0|bob" pg_one)) = 1%nat) /\
  fst (racing_registrations ctx "bob" "rob" "auth0|bob" pg_one) = (false, false) /\
  auth_count "auth0|bob"
    (snd (racing_registrations ctx "bob" "rob" "auth0|bob" pg_one)) = 2%nat /\
  ~ unique_auth (snd (racing_registrations ctx "bob" "rob" "auth0|bob" pg_one)).
Proof.
  intros ctx.
  assert (Hctx : ctx_done ctx = false) by reflexivity.
  assert (Hup : pg_up pg_one = true) by reflexivity.
  split; [by auto using pg_one_unique|].
  destruct (unique_auth_only_with_Exists_before_Add
              ctx "bob" "rob" "auth0|bob" pg_one Hctx Hup pg_one_unique)
    as (Hadd & Hiff & Hchecked & Hrace).
  split; [exact Hadd|]. split; [exact Hiff|]. split; [exact Hchecked|].
  apply Hrace. reflexivity.
Defined.

(** *** Beyond the invariant: what the three operations send and change *)

(** X1. Each operation sends the driver exactly one statement, and the text
    of that statement is a constant: the identifier, the user name and the
    [auth_id] travel as bind values, never inside the SQL text. *)
Theorem statements_are_constant_and_single
  (ctx : Ctx) (id : N) (username authId : string) (p : Pg) :
  pg_calls (snd (Get ctx id p)) =
    pg_calls p ++
    [CallQueryRow CtxTODO
       "select id, username, auth_id from users where users.id = $1" [SqlUint id]] /\
  pg_calls (snd (Exists ctx authId p)) =
    pg_calls p ++
    [CallQueryRow ctx
       "SELECT EXISTS(select 1 from users where auth_id=$1)" [SqlText authId]] /\
  pg_calls (snd (Add ctx username authId p)) =
    pg_calls p ++
    [CallExec ctx
       "INSERT INTO users (username, auth_id) VALUES ($1, $2)"
       [SqlText username; SqlText authId]].
Proof.
  split; [apply Get_call | split; [apply Exists_call | apply Add_call]].
Qed.

Lemma find_fresh_row (rows : list User) (id : N) (username authId : string) :
  (forall u, In u rows -> ID u <> id) ->
  List.find (fun u => N.eqb (ID u) id) (rows ++ [mkUser id username authId])
  = Some (mkUser id username authId).
Proof.
  induction rows as [|u rows IH]; intros Hfresh; simpl.
  - by rewrite N.eqb_refl.
  - destruct (N.eqb (ID u) id) eqn:E.
    + apply N.eqb_eq in E. by destruct (Hfresh u (or_introl eq_refl)).
    + apply IH. intros v Hv. apply Hfresh. by right.
Qed.

Lemma existsb_new_row (rows : list User) (id : N) (username authId : string) :
  existsb (fun u => String.eqb (AuthId u) authId)
    (rows ++ [mkUser id username authId]) = true.
Proof.
  rewrite existsb_app. simpl. rewrite String.eqb_refl. by rewrite !orb_true_r.
Qed.

(** X2. Insert, then look up. While the database answers and the serial
    counter is ahead of every stored [id], a principal that [Add] has just
    inserted is found by [Exists] under its [auth_id], and [Get] under the
    [id] the insert assigned returns exactly the user name and [auth_id]
    that were given. *)
Theorem Add_then_Exists_and_Get
  (ctx : Ctx) (username authId : string) (p : Pg) :
  ctx_done ctx = false -> pg_up p = true ->
  (forall u, In u (pg_rows p) -> ID u <> pg_next_id p) ->
  fst (Exists ctx authId (snd (Add ctx username authId p))) = (None, true) /\
  fst (Get ctx (pg_next_id p) (snd (Add ctx username authId p))) =
    (None, mkUser (pg_next_id p) username authId).
Proof.
  intros Hctx Hup Hfresh. rewrite Add_healthy by done. cbn [snd]. split.
  - rewrite Exists_healthy by done. cbn [fst pg_rows].
    by rewrite existsb_new_row.
  - unfold Get, bind, ret. cbn [pool_QueryRow Pg_Pool]. unfold pg_QueryRow.
    cbn [ctx_done pg_up negb]. unfold pg_select. cbn [pg_rows].
    rewrite String.eqb_refl.
    rewrite (find_fresh_row (pg_rows p) (pg_next_id p) username authId)
      by exact Hfresh.
    reflexivity.
Qed.

Lemma Add_then_Exists_and_Get_witness :
  let ctx := CtxRequest false in
  (ctx_done ctx = false /\ pg_up pg_one = true /\
   forall u, In u (pg_rows pg_one) -> ID u <> pg_next_id pg_one) /\
  fst (Exists ctx "auth0|bob" (snd (Add ctx "bob" "auth0|bob" pg_one))) = (None, true) /\
  fst (Get ctx 2 (snd (Add ctx "bob" "auth0|bob" pg_one))) =
    (None, mkUser 2 "bob" "auth0|bob").
Proof.
  intros ctx.
  assert (Hfresh : forall u, In u (pg_rows pg_one) -> ID u <> pg_next_id pg_one).
  { intros u [<-|[]]. discriminate. }
  split; [by repeat split|].
  exact (Add_then_Exists_and_Get ctx "bob" "auth0|bob" pg_one eq_refl eq_refl Hfresh).
Defined.



End RepoFacts.

(** * Properties of the date parser *)
Module GoTimeFacts.

Import GoTime Main.
Local Open Scope Z_scope.

(** *** Nothing may follow the appended clock reading

    The handler parses [date ++ "T00:00:00+11:00"]. Whatever part of the
    input is still unread once the seconds have been taken, if it ends in
    that whole suffix the parse cannot succeed: the zone takes one or six
    bytes and the suffix has fifteen. *)

Lemma append_length (a b : string) :
  String.length (a +:+ b) = (String.length a + String.length b)%nat.
Proof. induction a; simpl; auto. Qed.

Lemma zone_consumes (v : string) (off : Z) (z : string) :
  zone v = inr (off, z) ->
  String.length v = (1 + String.length z)%nat \/
  String.length v = (6 + String.length z)%nat.
Proof.
  unfold zone.
  destruct v as [|sign v1]; [done|].
  destruct (Ascii.eqb sign "Z").
  - intros [= <- <-]. left. reflexivity.
  - destruct v1 as [|h0 [|h1 [|colon [|m0 [|m1 rest]]]]]; try done.
    repeat case_match; try done; intros [= <- <-]; right; reflexivity.
Qed.

(** A run of bytes satisfying [f] ends at the latest where a byte that
    fails [f] stands. *)
Lemma span_stops (f : ascii -> bool) (a : string) (t : ascii) (b : string) :
  f t = false ->
  exists a1 a2, span f (a +:+ String t b) = (a1, a2 +:+ String t b).
Proof.
  intros Ht. induction a as [|c a IH]; simpl.
  - rewrite Ht. by exists "", "".
  - destruct (f c).
    + destruct IH as (a1 & a2 & ->). by exists (String c a1), a2.
    + by exists "", (String c a).
Qed.

(** A fractional second never reaches into the suffix. *)
Lemma fraction_suffix (rest : string) :
  exists rest', snd (fraction (rest +:+ since_suffix)) = rest' +:+ since_suffix.
Proof.
  unfold fraction.
  destruct rest as [|c0 [|c1 rest]].
  - by exists "".
  - exists (String c0 ""). simpl. by destruct (commaOrPeriod c0).
  - change (String c0 (String c1 rest) +:+ since_suffix)
      with (String c0 (String c1 (rest +:+ since_suffix))).
    cbv iota.
    destruct (commaOrPeriod c0 && isDigitChar c1).
    + destruct (span_stops isDigitChar (String c1 rest) "T" "00:00:00+11:00" eq_refl)
        as (a1 & a2 & Hs).
      assert (Hs' : span isDigitChar (String c1 (rest +:+ since_suffix))
                    = (a1, a2 +:+ since_suffix)) by exact Hs.
      rewrite Hs'. by exists a2.
    + by exists (String c0 (String c1 rest)).
Qed.

Lemma finish_fails (rest : string) :
  exists e, finish (rest +:+ since_suffix) = inl e.
Proof.
  unfold finish.
  destruct (fraction_suffix rest) as [rest' Hr].
  destruct (fraction (rest +:+ since_suffix)) as [nsec v]. simpl in Hr. subst v.
  destruct (zone (rest' +:+ since_suffix)) as [e|[off z]] eqn:Hz; [by eexists|].
  apply zone_consumes in Hz. rewrite append_length in Hz.
  change (String.length since_suffix) with 15%nat in Hz.
  destruct z as [|c z]; [cbn [String.length] in Hz; lia|]. by eexists.
Qed.

#[local] Arguments finish : simpl never.
#[local] Arguments ParseError : simpl never.
#[local] Arguments quote : simpl never.
#[local] Arguments out_of_range : simpl never.

(** Replace [finish v] by its value: a failure whenever [v] still ends in
    the suffix, the computed result when [v] is a literal. *)
Ltac finish_step :=
  match goal with
  | |- context [finish ?v] =>
      lazymatch v with
      | String ?c (?r +:+ _) =>
          let e := fresh "e" in let He := fresh "He" in
          destruct (finish_fails (String c r)) as [e He];
          assert (He' : finish v = inl e) by exact He;
          rewrite He'; clear He He'
      | ?r +:+ _ =>
          let e := fresh "e" in let He := fresh "He" in
          destruct (finish_fails r) as [e He];
          assert (He' : finish v = inl e) by exact He;
          rewrite He'; clear He He'
      | _ =>
          let r := eval vm_compute in (finish v) in
          change (finish v) with r
      end
  end.

(** Split on the first test the parser makes on a byte that is not
    known. *)
Ltac split_test :=
  match goal with
  | |- context [match ?x with _ => _ end] =>
      lazymatch x with
      | context [match _ with _ => _ end] => fail
      | _ => destruct x eqn:?
      end
  end.

(** The clock part of the layout accepts the suffix and nothing in front
    of it: with [k] extra bytes, for [k] up to eight the ["T"] of the
    suffix lands where a digit or a colon is due, and from nine on the
    whole suffix is still unread after the seconds. *)
Lemma parse_clock_extra (rest : string) :
  rest <> "" -> exists e, parse_clock (rest +:+ since_suffix) = inl e.
Proof.
  intros Hne. unfold since_suffix.
  destruct rest as [|c1 [|c2 [|c3 [|c4 [|c5 [|c6 [|c7 [|c8 [|c9 rest]]]]]]]]];
    [done|..]; clear Hne; unfold parse_clock.
  all: repeat (simpl; first [finish_step | split_test]); simpl;
    try (eexists; reflexivity).
Qed.

#[local] Arguments parse_clock : simpl never.
#[local] Arguments daysIn : simpl never.
#[local] Arguments digitVal : simpl never.
#[local] Arguments isDigitChar : simpl never.

Ltac clock_step :=
  match goal with
  | |- context [parse_clock ?v] =>
      lazymatch v with
      | String ?c (?r +:+ _) =>
          let e := fresh "e" in let He := fresh "He" in
          destruct (parse_clock_extra (String c r) ltac:(discriminate)) as [e He];
          assert (He' : parse_clock v = inl e) by exact He;
          rewrite He'; clear He He'
      | ?r +:+ _ =>
          let e := fresh "e" in let He := fresh "He" in
          destruct (parse_clock_extra r ltac:(discriminate)) as [e He];
          assert (He' : parse_clock v = inl e) by exact He;
          rewrite He'; clear He He'
      | _ =>
          let r := eval vm_compute in (parse_clock v) in
          change (parse_clock v) with r
      end
  end.

(** Boolean tests recorded along a path, turned into arithmetic. *)
Ltac bool_lia :=
  repeat match goal with
  | H : _ && _ = true |- _ => apply andb_true_iff in H; destruct H
  | H : _ || _ = false |- _ => apply orb_false_iff in H; destruct H
  | H : _ && _ = false |- _ => apply andb_false_iff in H; destruct H
  | H : _ || _ = true |- _ => apply orb_true_iff in H; destruct H
  | H : (_ <=? _) = true |- _ => apply Z.leb_le in H
  | H : (_ <=? _) = false |- _ => apply Z.leb_gt in H
  | H : (_ <? _) = true |- _ => apply Z.ltb_lt in H
  | H : (_ <? _) = false |- _ => apply Z.ltb_ge in H
  end; try congruence; try lia.

(** [time.Parse] on [date ++ "T00:00:00+11:00"], for every string [date]:
    it succeeds exactly on the calendar dates, and then with midnight of
    that date, eleven hours east of UTC. *)
Lemma Parse_date (date : string) :
  match calendar_date date with
  | Some (y, m, d) =>
      Parse_RFC3339 (date +:+ since_suffix) = inr (midnight_plus11 y m d)
  | None => exists e, Parse_RFC3339 (date +:+ since_suffix) = inl e
  end.
Proof.
  unfold since_suffix, midnight_plus11.
  destruct date
    as [|y0 [|y1 [|y2 [|y3 [|s1 [|m0 [|m1 [|s2 [|d0 [|d1 [|c rest]]]]]]]]]]];
    unfold Parse_RFC3339, calendar_date, getyear.
  all: repeat (simpl; first [clock_step | split_test]); simpl;
    try (eexists; reflexivity); try reflexivity; try (exfalso; bool_lia).
Qed.

(** The text of two parse errors: a year that is not one, and a day the
    month does not have. *)
Example ParseError_texts :
  Parse_RFC3339 "yesterdayT00:00:00+11:00" =
    inl (Err ("parsing time " +:+ String dquote ("yesterdayT00:00:00+11:00" +:+
              String dquote (" as " +:+ String dquote ("2006-01-02T15:04:05Z07:00" +:+
              String dquote (": cannot parse " +:+ String dquote ("yesterdayT00:00:00+11:00" +:+
              String dquote (" as " +:+ String dquote ("2006" +:+
              String dquote ""))))))))) /\
  Parse_RFC3339 "2022-02-30T00:00:00+11:00" =
    inl (Err ("parsing time " +:+ String dquote ("2022-02-30T00:00:00+11:00" +:+
              String dquote ": day out of range"))).
Proof. split; reflexivity. Qed.

End GoTimeFacts.

(** * Properties of the session gate, the router and the handlers *)
Module MainFacts.

Import GoTime Main.
Local Open Scope list_scope.

(** *** Path templates *)

Lemma strip_prefix_Some (p s rest : string) :
  strip_prefix p s = Some rest -> s = p +:+ rest.
Proof.
  revert s. induction p as [|a p IH]; intros s; simpl.
  - by intros [= ->].
  - destruct s as [|b s]; [done|].
    destruct (Ascii.eqb a b) eqn:E; [|done].
    apply Ascii.eqb_eq in E; subst b. intros Hs. by rewrite (IH s Hs).
Qed.

Lemma span_spec (f : ascii -> bool) (s a b : string) :
  span f s = (a, b) -> s = a +:+ b /\ all_chars f a = true.
Proof.
  revert a b. induction s as [|c s IH]; intros a b; simpl.
  - by intros [= <- <-].
  - destruct (f c) eqn:E.
    + destruct (span f s) as [a' b'] eqn:Es. intros [= <- <-].
      destruct (IH a' b' eq_refl) as [-> Hall]. simpl. by rewrite E.
    + by intros [= <- <-].
Qed.

(** The template [/note/{id:[0-9]+}/delete] binds [id] to one or more
    decimal digits, and only on paths of that very shape. *)
Lemma delete_route_binds_digits (path : string) (vars : gmap string string) :
  Pattern_match (PathVar "/note/" "id" isDigitChar "/delete") path = Some vars ->
  exists id, vars = {[ "id" := id ]} /\ numeric id = true /\
             path = "/note/" +:+ id +:+ "/delete".
Proof.
  unfold Pattern_match.
  destruct (strip_prefix "/note/" path) as [rest|] eqn:Hp; [|done].
  destruct (span isDigitChar rest) as [v rest'] eqn:Hs.
  destruct (String.eqb v "") eqn:Hv; [done|].
  destruct (String.eqb rest' "/delete") eqn:Hr; [|done].
  intros [= <-]. exists v.
  apply strip_prefix_Some in Hp. apply span_spec in Hs as [Hs Hall].
  apply String.eqb_eq in Hr. subst.
  unfold numeric. by rewrite Hv, Hall.
Qed.

(** The template [/t/{date}] binds [date] to the rest of the path, which
    is not empty and holds no slash. *)
Lemma since_route_binds_segment (path : string) (vars : gmap string string) :
  Pattern_match (PathVar "/t/" "date" notSlash "") path = Some vars ->
  exists date, vars = {[ "date" := date ]} /\ path = "/t/" +:+ date /\
               date <> "" /\ all_chars notSlash date = true.
Proof.
  unfold Pattern_match.
  destruct (strip_prefix "/t/" path) as [rest|] eqn:Hp; [|done].
  destruct (span notSlash rest) as [v rest'] eqn:Hs.
  destruct (String.eqb v "") eqn:Hv; [done|].
  destruct (String.eqb rest' "") eqn:Hr; [|done].
  intros [= <-]. exists v.
  apply strip_prefix_Some in Hp. apply span_spec in Hs as [Hs Hall].
  apply String.eqb_eq in Hr. apply String.eqb_neq in Hv. subst.
  repeat split; try done.
  clear. f_equal. induction v as [|c v IH]; [done|].
  change (String c (v +:+ "") = String c v). by rewrite IH.
Qed.

Ltac run_handler :=
  unfold run_from, HomeHandler, HomeSinceHandler, SubmitHandler, SearchHandler,
    ViewNoteHandler, serveResources, AddNoteHandler, ToggleNoteHandler,
    DeleteNoteHandler, authentication_LoginHandler, authentication_Logout,
    authentication_CallbackHandler, RenderTemplate, handleUnexpectedError,
    noteRepo_Add, noteRepo_Get, noteRepo_GetAllSince, noteRepo_Search,
    noteRepo_ToggleDone, noteRepo_Delete, http_Redirect, http_Error,
    on_db, bind, ret, emit;
  cbn [w_db w_trace fst snd];
  repeat match goal with
  | |- context [match ?x with _ => _ end] =>
      lazymatch x with
      | context [match _ with _ => _ end] => fail
      | _ => destruct x
      end; cbn [w_db w_trace fst snd]
  end.

Ltac trace_ok :=
  rewrite ?Forall_app; repeat split; try assumption;
  repeat (constructor; try done).

Section Gate.
Context {DB : Type} `{NoteRepo DB} `{PrincipalRepo DB}.
Variable G : Globals.

Lemma verdict_false_iff (r : Request) :
  verdict r = false <-> no_principal_id r.
Proof.
  unfold verdict, no_principal_id, Store_Get.
  destruct (Cookies r !! "auth") as [[e|values]|]; simpl;
    rewrite ?lookup_empty; try done.
  destruct (values !! "user_id") as [[s|z|b]|]; simpl; split; try done.
  intros Hno. by specialize (Hno s).
Qed.

Lemma getUserFromSession_ok (r : Request) (w : World DB) :
  snd (fst (getUserFromSession r w)) = verdict r.
Proof.
  unfold getUserFromSession, verdict, Store_Get, userRepo_Get, on_db, bind, ret.
  destruct (Cookies r !! "auth") as [[e|values]|]; simpl;
    rewrite ?lookup_empty; try done.
  destruct (values !! "user_id") as [[s|z|b]|]; simpl; try done.
  by destruct (urepo_Get (Context r) s (w_db w)) as [[u e] db].
Qed.

(** The gate on a request without a principal identifier. *)
Lemma ensureAuthed_rejects (next : Handler) (r : Request) (w : World DB) :
  verdict r = false ->
  run_from (ensureAuthed next r) w =
  mkWorld (w_db w)
    (w_trace w ++ session_log r ++ [EvRedirect "/login" StatusTemporaryRedirect]).
Proof.
  unfold verdict, run_from, ensureAuthed, getUserFromSession, session_log,
    Store_Get, bind, ret, http_Redirect, emit.
  destruct (Cookies r !! "auth") as [[e|values]|]; simpl;
    [|destruct (values !! "user_id") as [[s|z|b]|]; simpl|];
    rewrite ?lookup_empty; simpl;
    intros Hv; try discriminate Hv; by rewrite <- ?app_assoc.
Qed.

Lemma ensureAuthed_admits (next : Handler) (r : Request) (w : World DB) (id : string) :
  assert_string (Values (fst (Store_Get r "auth")) !! "user_id") = (id, true) ->
  snd (fst (getUserFromSession r w)) = true /\
  run_from (ensureAuthed next r) w =
  run_from (next r)
    (mkWorld (snd (urepo_Get (Context r) id (w_db w)))
             (w_trace w ++ [EvLogPrintf (Values (fst (Store_Get r "auth")));
                            EvPrincipalGet (Context r) id])).
Proof.
  unfold run_from, ensureAuthed, getUserFromSession, Store_Get, userRepo_Get,
    on_db, bind, ret, emit.
  destruct (Cookies r !! "auth") as [[e|values]|]; simpl;
    rewrite ?lookup_empty; simpl; try discriminate.
  destruct (values !! "user_id") as [[s|z|b]|]; simpl; try discriminate.
  intros [= ->].
  destruct (urepo_Get (Context r) id (w_db w)) as [[u e] db]; simpl.
  by rewrite <- app_assoc.
Qed.

Lemma response_app (tr1 tr2 : list Event) :
  response (tr1 ++ tr2) = response tr1 ++ response tr2.
Proof. apply List.filter_app. Qed.

Lemma note_calls_app (tr1 tr2 : list Event) :
  note_calls (tr1 ++ tr2) = note_calls tr1 ++ note_calls tr2.
Proof. apply omap_app. Qed.

Lemma session_log_quiet (r : Request) :
  response (session_log r) = [] /\ note_calls (session_log r) = [].
Proof.
  unfold session_log. by destruct (Store_Get r "auth") as [s [e|]].
Qed.

(** C1, as the code has it. A request whose path is served by the gated
    sub-router and whose session cookie is absent, does not decode, or
    decodes to values without a string under ["user_id"] gets exactly one
    answer, the temporary redirect to [/login]; the trace grows only by
    what the gate prints and that redirect, so no call reaches the note
    repository, and the database is left as it was. A session that names a
    principal is not covered: the gate admits it whether or not the store
    still has that principal. *)
Theorem unauthenticated_request_redirected_without_store_calls
  (r : Request) (w : World DB) (h : Handler) (vars : gmap string string) :
  Router_Match (r_routes (DB:=DB)) (URL_Path r) = None ->
  Router_Match (authedRouter_routes G) (URL_Path r) = Some (h, vars) ->
  no_principal_id r ->
  let w' := run_from (ServeHTTP G r) w in
  w' = mkWorld (w_db w)
         (w_trace w ++ session_log r ++ [EvRedirect "/login" StatusTemporaryRedirect]) /\
  response (w_trace w') =
    response (w_trace w) ++ [EvRedirect "/login" StatusTemporaryRedirect] /\
  note_calls (w_trace w') = note_calls (w_trace w) /\
  w_db w' = w_db w.
Proof.
  intros Hopen Hgated Hv. apply verdict_false_iff in Hv.
  assert (Hrun : run_from (ServeHTTP G r) w =
    mkWorld (w_db w)
      (w_trace w ++ session_log r ++ [EvRedirect "/login" StatusTemporaryRedirect])).
  { unfold ServeHTTP. rewrite Hopen, Hgated.
    by rewrite (ensureAuthed_rejects h (setVars r vars) w). }
  cbv zeta. rewrite Hrun. cbn [w_trace w_db].
  destruct (session_log_quiet r) as [Hresp Hcalls].
  rewrite !response_app, !note_calls_app, Hresp, Hcalls. cbn.
  by rewrite app_nil_r.
Qed.

(** C3. When the session cookie is absent, does not decode, or decodes
    to values without a string principal identifier, the gate's verdict
    is [false] and the request is still answered: the only thing written
    to the response is the temporary redirect to [/login] (no error
    response, no panic), after the decoding error, if any, has been
    printed; [next] does not run and the database is untouched. *)
Theorem undecodable_session_degrades_to_login_redirect
  (next : Handler) (r : Request) (w : World DB) :
  no_principal_id r ->
  let w' := run_from (ensureAuthed next r) w in
  snd (fst (getUserFromSession r w)) = false /\
  w' = mkWorld (w_db w)
         (w_trace w ++ session_log r ++ [EvRedirect "/login" StatusTemporaryRedirect]) /\
  response (session_log r ++ [EvRedirect "/login" StatusTemporaryRedirect]) =
    [EvRedirect "/login" StatusTemporaryRedirect] /\
  note_calls (session_log r ++ [EvRedirect "/login" StatusTemporaryRedirect]) = [].
Proof.
  intros Hno. apply verdict_false_iff in Hno. cbv zeta.
  rewrite getUserFromSession_ok.
  destruct (session_log_quiet r) as [Hresp Hcalls].
  rewrite response_app, note_calls_app, Hresp, Hcalls.
  repeat split; [done | by apply ensureAuthed_rejects].
Qed.

(** C2, as the code has it. When the session holds a string under
    ["user_id"], the gate logs the session values, asks the principal
    repository for that identifier, discards what it answers (principal
    and error alike) and hands the request to [next]: a principal that is
    no longer in the store does not turn the request away. *)
Theorem session_with_identifier_is_admitted
  (next : Handler) (r : Request) (w : World DB) (id : string) :
  assert_string (Values (fst (Store_Get r "auth")) !! "user_id") = (id, true) ->
  snd (fst (getUserFromSession r w)) = true /\
  run_from (ensureAuthed next r) w =
  run_from (next r)
    (mkWorld (snd (urepo_Get (Context r) id (w_db w)))
             (w_trace w ++ [EvLogPrintf (Values (fst (Store_Get r "auth")));
                            EvPrincipalGet (Context r) id])).
Proof. apply ensureAuthed_admits. Qed.

(** *** Handlers, one trace at a time *)

Lemma handleUnexpectedError_run (err : error) (w : World DB) :
  run_from (handleUnexpectedError err) w =
  mkWorld (w_db w)
    (w_trace w ++ [EvError "There was an unexpected error" StatusInternalServerError;
                   EvLogPrintln (error_msg err)]).
Proof.
  unfold run_from, handleUnexpectedError, http_Error, bind, emit; simpl.
  by rewrite <- app_assoc.
Qed.

(** C7, as the code has it. When [time.Parse] rejects the date taken
    from the path, the handler treats it like any unexpected error: it
    answers with [http.Error] (the generic message, status 500, the very
    answer given when the store fails), logs the parse error and returns.
    Nothing was written before, so that is what the caller receives; no
    call is made on the note repository and the database is left as it
    was. *)
Theorem unparseable_date_aborts_without_store_call
  (r : Request) (w : World DB) (err : error) :
  Parse_RFC3339 (index (Vars r) "date" +:+ "T00:00:00+11:00") = inl err ->
  let w' := run_from (HomeSinceHandler G r) w in
  w' = mkWorld (w_db w)
         (w_trace w ++ [EvError "There was an unexpected error" StatusInternalServerError;
                        EvLogPrintln (error_msg err)]) /\
  response (w_trace w') =
    response (w_trace w) ++ [EvError "There was an unexpected error" StatusInternalServerError] /\
  note_calls (w_trace w') = note_calls (w_trace w) /\
  w_db w' = w_db w.
Proof.
  intros Hparse. cbv zeta. unfold HomeSinceHandler. rewrite Hparse.
  rewrite handleUnexpectedError_run. cbn [w_trace w_db].
  rewrite response_app, note_calls_app. cbn. by rewrite app_nil_r.
Qed.

(** C6. Each of the three handlers that change note state, once its
    call on the note repository has returned no error, writes one thing
    to the response: a redirect with status 303 (to [/], or to [/#id]
    after a toggle). No template is executed. *)
Theorem mutating_handlers_answer_with_redirect (r : Request) (w : World DB) :
  (fst (NoteRepo_Add (Context r) (FormValue r "body") (FormValue r "tags") (w_db w)) = None ->
   w_trace (run_from (AddNoteHandler r) w) =
     w_trace w ++ [EvNote (CallAdd (Context r) (FormValue r "body") (FormValue r "tags"));
                   EvRedirect "/" StatusSeeOther]) /\
  (fst (NoteRepo_ToggleDone (Context r) (FormValue r "id") (w_db w)) = None ->
   w_trace (run_from (ToggleNoteHandler r) w) =
     w_trace w ++ [EvNote (CallToggleDone (Context r) (FormValue r "id"));
                   EvRedirect ("/#" +:+ FormValue r "id") StatusSeeOther]) /\
  (fst (NoteRepo_Delete (Context r) (index (Vars r) "id") (w_db w)) = None ->
   w_trace (run_from (DeleteNoteHandler r) w) =
     w_trace w ++ [EvNote (CallDelete (Context r) (index (Vars r) "id"));
                   EvRedirect "/" StatusSeeOther]).
Proof.
  unfold run_from, AddNoteHandler, ToggleNoteHandler, DeleteNoteHandler,
    noteRepo_Add, noteRepo_ToggleDone, noteRepo_Delete, http_Redirect,
    on_db, bind, emit.
  cbn [w_db w_trace fst snd].
  repeat split.
  - destruct (NoteRepo_Add _ _ _ _) as [e db]; cbn [fst]; intros ->; cbn.
    by rewrite <- app_assoc.
  - destruct (NoteRepo_ToggleDone _ _ _) as [e db]; cbn [fst]; intros ->; cbn.
    by rewrite <- app_assoc.
  - destruct (NoteRepo_Delete _ _ _) as [e db]; cbn [fst]; intros ->; cbn.
    by rewrite <- app_assoc.
Qed.

(** *** Which identifiers reach [Delete] *)

Lemma HomeHandler_keeps r : keeps_numeric (DB:=DB) (HomeHandler G) r.
Proof. intros w Hw. run_handler; trace_ok. Qed.

Lemma HomeSinceHandler_keeps r : keeps_numeric (DB:=DB) (HomeSinceHandler G) r.
Proof. intros w Hw. run_handler; trace_ok. Qed.

Lemma SubmitHandler_keeps r : keeps_numeric (DB:=DB) (SubmitHandler G) r.
Proof. intros w Hw. run_handler; trace_ok. Qed.

Lemma SearchHandler_keeps r : keeps_numeric (DB:=DB) (SearchHandler G) r.
Proof. intros w Hw. run_handler; trace_ok. Qed.

Lemma serveResources_keeps r : keeps_numeric (DB:=DB) (serveResources G) r.
Proof. intros w Hw. run_handler; trace_ok. Qed.

Lemma AddNoteHandler_keeps r : keeps_numeric (DB:=DB) AddNoteHandler r.
Proof. intros w Hw. run_handler; trace_ok. Qed.

Lemma ToggleNoteHandler_keeps r : keeps_numeric (DB:=DB) ToggleNoteHandler r.
Proof. intros w Hw. run_handler; trace_ok. Qed.

Lemma DeleteNoteHandler_keeps r :
  numeric (index (Vars r) "id") = true -> keeps_numeric (DB:=DB) DeleteNoteHandler r.
Proof. intros Hid w Hw. run_handler; trace_ok. Qed.

Lemma ensureAuthed_keeps (next : Handler) (r : Request) :
  keeps_numeric next r -> keeps_numeric (ensureAuthed next) r.
Proof.
  intros Hnext w Hw.
  destruct (assert_string (Values (fst (Store_Get r "auth")) !! "user_id"))
    as [id [|]] eqn:Hid.
  - destruct (ensureAuthed_admits next r w id Hid) as [_ ->].
    apply Hnext. cbn [w_trace]. trace_ok.
  - rewrite ensureAuthed_rejects by (unfold verdict; by rewrite Hid).
    cbn [w_trace]. unfold session_log.
    destruct (Store_Get r "auth") as [s [e|]]; trace_ok.
Qed.

Lemma ServeHTTP_keeps (r : Request) : keeps_numeric (ServeHTTP G) r.
Proof.
  intros w. unfold ServeHTTP.
  destruct (Router_Match (r_routes (DB:=DB)) (URL_Path r)) as [[h vars]|] eqn:Hopen.
  - unfold r_routes in Hopen. cbn [Router_Match Pattern_match] in Hopen.
    repeat match type of Hopen with
    | context [String.eqb ?a ?b] => destruct (String.eqb a b)
    end; simplify_eq; intros Hw; run_handler; trace_ok.
  - destruct (Router_Match (authedRouter_routes G) (URL_Path r))
      as [[h vars]|] eqn:Hgated; [|intros Hw; run_handler; trace_ok].
    revert w. apply ensureAuthed_keeps.
    unfold authedRouter_routes in Hgated. cbn [Router_Match] in Hgated.
    repeat match type of Hgated with
    | context [match Pattern_match ?p ?path with _ => _ end] =>
        destruct (Pattern_match p path) as [vs|] eqn:?
    end; simplify_eq;
    auto using HomeHandler_keeps, HomeSinceHandler_keeps, SubmitHandler_keeps,
      SearchHandler_keeps, serveResources_keeps, AddNoteHandler_keeps,
      ToggleNoteHandler_keeps.
    apply DeleteNoteHandler_keeps.
    match goal with
    | Hm : Pattern_match (PathVar "/note/" _ _ _) _ = Some _ |- _ =>
        apply delete_route_binds_digits in Hm as (id & -> & Hnum & _)
    end.
    unfold index. cbn [Vars setVars]. by rewrite lookup_singleton_eq.
Qed.

(** C9. The delete route binds [id] only to one or more decimal digits
    (and only on paths of the shape [/note/<digits>/delete]); and serving
    any request whatsoever keeps the property that every [Delete] call on
    the note repository carries such an identifier, so none is ever made
    with a non-numeric one. *)
Theorem Delete_never_receives_non_numeric_id (r : Request) (w : World DB) :
  (forall vars,
     Pattern_match (PathVar "/note/" "id" isDigitChar "/delete") (URL_Path r) = Some vars ->
     exists id, vars = {[ "id" := id ]} /\ numeric id = true /\
                URL_Path r = "/note/" +:+ id +:+ "/delete") /\
  (Forall numeric_delete (w_trace w) ->
   Forall numeric_delete (w_trace (run_from (ServeHTTP G r) w))).
Proof.
  split.
  - intros vars. apply delete_route_binds_digits.
  - apply ServeHTTP_keeps.
Qed.


End Gate.

(** *** The statements above, run *)

Import Stub.

Lemma unauthenticated_request_redirected_without_store_calls_witness :
  let r := request "/note" {[ "body" := "milk" ]} no_cookie in
  (Router_Match (r_routes (DB:=Backend)) (URL_Path r) = None /\
   Router_Match (authedRouter_routes globals) (URL_Path r) = Some (AddNoteHandler, ∅) /\
   no_principal_id r) /\
  response (w_trace (run_from (ServeHTTP globals r) world)) =
    [EvRedirect "/login" StatusTemporaryRedirect] /\
  note_calls (w_trace (run_from (ServeHTTP globals r) world)) = [] /\
  w_db (run_from (ServeHTTP globals r) world) = backend.
Proof.
  intros r.
  assert (H1 : Router_Match (r_routes (DB:=Backend)) (URL_Path r) = None)
    by reflexivity.
  assert (H2 : Router_Match (authedRouter_routes globals) (URL_Path r)
               = Some (AddNoteHandler, ∅)) by reflexivity.
  assert (H3 : no_principal_id r) by exact I.
  split; [done|].
  destruct (unauthenticated_request_redirected_without_store_calls
              globals r world AddNoteHandler ∅ H1 H2 H3) as (_ & Hr & Hc & Hd).
  done.
Defined.

(** C1, refuted as stated. The session names the principal
    ["auth0|gone"], whom the store does not have, so it does not resolve
    to a principal; the request for [/note/7/delete], a path of the gated
    sub-router, is served all the same: the note repository is asked to
    delete note 7 and the answer is the redirect to [/]. *)
Lemma unresolved_session_reaches_the_store :
  ~ turns_away_unresolved_session globals
      (request "/note/7/delete" ∅ gone_cookie) world.
Proof.
  intros Hturn.
  destruct (Hturn DeleteNoteHandler {[ "id" := "7" ]} eq_refl eq_refl)
    as [_ Hcalls].
  - intros (id & Hid & Hget).
    vm_compute in Hid. injection Hid as <-.
    vm_compute in Hget. discriminate Hget.
  - vm_compute in Hcalls. discriminate Hcalls.
Qed.

Lemma undecodable_session_degrades_to_login_redirect_witness :
  let r := delete_seven bad_cookie in
  no_principal_id r /\
  snd (fst (getUserFromSession r world)) = false /\
  run_from (ensureAuthed DeleteNoteHandler r) world =
    mkWorld backend
      [EvStderr "securecookie: the value is not valid"; EvLogPrintf ∅;
       EvRedirect "/login" StatusTemporaryRedirect].
Proof.
  intros r.
  assert (Hno : no_principal_id r) by exact I.
  split; [done|].
  destruct (undecodable_session_degrades_to_login_redirect
              DeleteNoteHandler r world Hno) as (Hv & Hrun & _ & _).
  split; [exact Hv | exact Hrun].
Defined.

(** C2, refuted as stated. The session names the principal
    ["auth0|gone"], whom the store no longer has; the gate in front of the
    delete handler nevertheless lets the request through, the note
    repository is asked to delete note 7 and the answer is the redirect to
    [/], not the redirect to [/login]. *)
Lemma missing_principal_is_admitted :
  ~ rejects_missing_principal DeleteNoteHandler (delete_seven gone_cookie) world.
Proof.
  intros Hrej.
  specialize (Hrej "auth0|gone" eq_refl).
  assert (Hgone : snd (fst (urepo_Get (Context (delete_seven gone_cookie))
                              "auth0|gone" (w_db world))) <> None) by done.
  specialize (Hrej Hgone). vm_compute in Hrej. discriminate Hrej.
Qed.

Example missing_principal_trace :
  w_trace (run_from (ServeHTTP globals (request "/note/7/delete" ∅ gone_cookie)) world) =
  [EvLogPrintf {[ "user_id" := VString "auth0|gone" ]};
   EvPrincipalGet (CtxRequest false) "auth0|gone";
   EvNote (CallDelete (CtxRequest false) "7");
   EvRedirect "/" StatusSeeOther].
Proof. reflexivity. Qed.

Lemma session_with_identifier_is_admitted_witness :
  let r := delete_seven gone_cookie in
  assert_string (Values (fst (Store_Get r "auth")) !! "user_id") = ("auth0|gone", true) /\
  snd (fst (getUserFromSession r world)) = true /\
  run_from (ensureAuthed DeleteNoteHandler r) world =
    mkWorld (mkBackend 1 None (principals backend))
      [EvLogPrintf {[ "user_id" := VString "auth0|gone" ]};
       EvPrincipalGet (CtxRequest false) "auth0|gone";
       EvNote (CallDelete (CtxRequest false) "7");
       EvRedirect "/" StatusSeeOther].
Proof.
  intros r.
  assert (Hid : assert_string (Values (fst (Store_Get r "auth")) !! "user_id")
                = ("auth0|gone", true)) by reflexivity.
  split; [exact Hid|].
  destruct (session_with_identifier_is_admitted DeleteNoteHandler r world
              "auth0|gone" Hid) as [Hv Hrun].
  split; [exact Hv|]. rewrite Hrun. reflexivity.
Defined.

Lemma unparseable_date_aborts_without_store_call_witness :
  let r := setVars (request "/t/yesterday" ∅ ada_cookie) {[ "date" := "yesterday" ]} in
  let err := ParseError RFC3339 "yesterdayT00:00:00+11:00"
               (newParseError "2006" "yesterdayT00:00:00+11:00" "") in
  Parse_RFC3339 (index (Vars r) "date" +:+ "T00:00:00+11:00") = inl err /\
  run_from (HomeSinceHandler globals r) world =
    mkWorld backend
      [EvError "There was an unexpected error" StatusInternalServerError;
       EvLogPrintln (error_msg err)] /\
  note_calls (w_trace (run_from (HomeSinceHandler globals r) world)) = [].
Proof.
  intros r err.
  assert (Hp : Parse_RFC3339 (index (Vars r) "date" +:+ "T00:00:00+11:00") = inl err)
    by reflexivity.
  split; [exact Hp|].
  destruct (unparseable_date_aborts_without_store_call globals r world err Hp)
    as (Hrun & _ & Hcalls & _).
  split; [exact Hrun | exact Hcalls].
Defined.

(** C7, refuted as stated. The date [yesterday] does not parse, and the
    caller is not told so: the answer is the generic failure, the same as
    when the store cannot be reached. *)
Lemma unparseable_date_gets_the_generic_failure :
  ~ reports_validation_error globals
      (setVars (request "/t/yesterday" ∅ ada_cookie) {[ "date" := "yesterday" ]}) world.
Proof.
  intros Hrep.
  destruct (Hrep (ParseError RFC3339 "yesterdayT00:00:00+11:00"
                    (newParseError "2006" "yesterdayT00:00:00+11:00" ""))
              eq_refl) as [(e & Hresp & Hother) _].
  apply Hother. vm_compute in Hresp. injection Hresp as <-. reflexivity.
Qed.

(** A date that does not parse and a store that is down are answered
    alike. *)
Example unparseable_date_and_store_failure_answered_alike :
  response (w_trace (run_from
    (ServeHTTP globals (request "/t/yesterday" ∅ ada_cookie)) world)) =
  response (w_trace (run_from
    (ServeHTTP globals (request "/t/2022-03-04" ∅ ada_cookie)) broken_world)).
Proof. reflexivity. Qed.

Lemma mutating_handlers_answer_with_redirect_witness :
  let r := setVars (request "/note/7/delete" {[ "id" := "7"; "body" := "milk" ]} ada_cookie)
             {[ "id" := "7" ]} in
  (fst (NoteRepo_Add (Context r) (FormValue r "body") (FormValue r "tags") backend) = None /\
   fst (NoteRepo_ToggleDone (Context r) (FormValue r "id") backend) = None /\
   fst (NoteRepo_Delete (Context r) (index (Vars r) "id") backend) = None) /\
  w_trace (run_from (AddNoteHandler r) world) =
    [EvNote (CallAdd (CtxRequest false) "milk" ""); EvRedirect "/" StatusSeeOther] /\
  w_trace (run_from (ToggleNoteHandler r) world) =
    [EvNote (CallToggleDone (CtxRequest false) "7"); EvRedirect "/#7" StatusSeeOther] /\
  w_trace (run_from (DeleteNoteHandler r) world) =
    [EvNote (CallDelete (CtxRequest false) "7"); EvRedirect "/" StatusSeeOther].
Proof.
  intros r.
  destruct (mutating_handlers_answer_with_redirect r world) as (Ha & Ht & Hd).
  split; [done|].
  split; [|split].
  - rewrite Ha; reflexivity.
  - rewrite Ht; reflexivity.
  - rewrite Hd; reflexivity.
Defined.

Lemma Delete_never_receives_non_numeric_id_witness :
  let r := request "/note/7/delete" ∅ ada_cookie in
  (exists id, ({[ "id" := "7" ]} : gmap string string) = {[ "id" := id ]} /\
              numeric id = true /\ URL_Path r = "/note/" +:+ id +:+ "/delete") /\
  Forall numeric_delete (w_trace (run_from (ServeHTTP globals r) world)).
Proof.
  intros r.
  destruct (Delete_never_receives_non_numeric_id globals r world) as [Hroute Hkeeps].
  split.
  - apply Hroute. reflexivity.
  - apply Hkeeps. constructor.
Defined.

(** The three routes that change note state, as registered. *)
Example mutating_routes :
  Router_Match (authedRouter_routes (DB:=Backend) globals) "/note"
    = Some (AddNoteHandler, ∅) /\
  Router_Match (authedRouter_routes (DB:=Backend) globals) "/note/toggle"
    = Some (ToggleNoteHandler, ∅) /\
  Router_Match (authedRouter_routes (DB:=Backend) globals) "/note/7/delete"
    = Some (DeleteNoteHandler, {[ "id" := "7" ]}).
Proof. repeat split. Qed.

(** The list-notes-since route on 4 March 2022, and on a date that month
    does not have. *)
Example since_fourth_of_march :
  w_trace (run_from (ServeHTTP globals (request "/t/2022-03-04" ∅ ada_cookie)) world) =
  [EvLogPrintf {[ "user_id" := VString "auth0|ada" ]};
   EvPrincipalGet (CtxRequest false) "auth0|ada";
   EvNote (CallGetAllSince (CtxRequest false) (mkTime 2022 3 4 0 0 0 0 39600));
   EvExecute "home" (mkPageData [])].
Proof. reflexivity. Qed.

Example since_thirtieth_of_february :
  w_trace (run_from (ServeHTTP globals (request "/t/2022-02-30" ∅ ada_cookie)) world) =
  [EvLogPrintf {[ "user_id" := VString "auth0|ada" ]};
   EvPrincipalGet (CtxRequest false) "auth0|ada";
   EvError "There was an unexpected error" StatusInternalServerError;
   EvLogPrintln (ParseError_Error RFC3339 "2022-02-30T00:00:00+11:00"
                   (newParseError "" "" (out_of_range "day")))].
Proof. reflexivity. Qed.

(** A path whose identifier is not numeric is not served by the delete
    route at all: the router answers not-found and nothing is deleted. *)
Example delete_with_letters_is_not_routed :
  w_trace (run_from (ServeHTTP globals (request "/note/7a/delete" ∅ ada_cookie)) world) =
  [EvNotFound].
Proof. reflexivity. Qed.

End MainFacts.

(** * Properties of the server as a whole *)
Module ServerFacts.

Import GoTime Main MainFacts.
Local Open Scope string_scope.
Local Open Scope list_scope.

(** *** Strings *)

Lemma span_all (f : ascii -> bool) (a b : string) :
  all_chars f a = true ->
  match b with String c _ => f c = false | EmptyString => True end ->
  span f (a +:+ b) = (a, b).
Proof.
  intros Ha Hb. induction a as [|c a IH].
  - change ("" +:+ b) with b. destruct b as [|c b]; [done|].
    cbn [span]. by rewrite Hb.
  - cbn [all_chars] in Ha. apply andb_true_iff in Ha as [Hc Ha].
    change (String c a +:+ b) with (String c (a +:+ b)).
    cbn [span]. by rewrite Hc, (IH Ha).
Qed.

Lemma append_empty_r (a : string) : a +:+ "" = a.
Proof.
  induction a as [|c a IH]; [done|].
  change (String c (a +:+ "") = String c a). by rewrite IH.
Qed.

Lemma append_associative (a b c : string) : (a +:+ b) +:+ c = a +:+ (b +:+ c).
Proof.
  induction a as [|x a IH]; [done|].
  change (String x ((a +:+ b) +:+ c) = String x (a +:+ (b +:+ c))). by rewrite IH.
Qed.

Lemma strip_prefix_app (p s : string) : strip_prefix p (p +:+ s) = Some s.
Proof.
  induction p as [|c p IH]; [done|].
  change (String c p +:+ s) with (String c (p +:+ s)). cbn [strip_prefix].
  by rewrite Ascii.eqb_refl.
Qed.

Lemma strip_suffix_eq (suffix s : string) :
  strip_suffix suffix s =
  if String.eqb s suffix then Some ""
  else match s with
       | "" => None
       | String c s' =>
           match strip_suffix suffix s' with
           | Some a => Some (String c a)
           | None => None
           end
       end.
Proof. by destruct s. Qed.

Lemma strip_suffix_app (a suffix : string) :
  strip_suffix suffix (a +:+ suffix) = Some a.
Proof.
  induction a as [|c a IH].
  - change ("" +:+ suffix) with suffix. rewrite strip_suffix_eq.
    by rewrite String.eqb_refl.
  - change (String c a +:+ suffix) with (String c (a +:+ suffix)).
    rewrite strip_suffix_eq.
    destruct (String.eqb _ suffix) eqn:E.
    + apply String.eqb_eq in E. apply (f_equal String.length) in E.
      cbn [String.length] in E. rewrite GoTimeFacts.append_length in E. lia.
    + by rewrite IH.
Qed.

Lemma strip_suffix_Some (suffix s a : string) :
  strip_suffix suffix s = Some a -> s = a +:+ suffix.
Proof.
  revert a. induction s as [|c s IH]; intros a; rewrite strip_suffix_eq.
  - destruct (String.eqb "" suffix) eqn:E; [|done].
    apply String.eqb_eq in E. by intros [= <-].
  - destruct (String.eqb (String c s) suffix) eqn:E.
    + apply String.eqb_eq in E. by intros [= <-].
    + destruct (strip_suffix suffix s) as [a'|]; [|done].
      intros [= <-]. by rewrite (IH a' eq_refl).
Qed.

Lemma span_whole (f : ascii -> bool) (a : string) :
  all_chars f a = true -> span f a = (a, "").
Proof.
  induction a as [|c a IH]; [done|]. cbn [all_chars span].
  intros [Hc Ha]%andb_true_iff. by rewrite Hc, (IH Ha).
Qed.

Lemma digit_is_not_slash (c : ascii) : isDigitChar c = true -> notSlash c = true.
Proof.
  intros Hc. unfold notSlash. destruct (Ascii.eqb c "/") eqn:E; [|done].
  apply Ascii.eqb_eq in E. subst c. discriminate Hc.
Qed.

Lemma calendar_date_segment (date : string) (ymd : Z * Z * Z) :
  calendar_date date = Some ymd ->
  String.eqb date "" = false /\ all_chars notSlash date = true.
Proof.
  unfold calendar_date.
  destruct date
    as [|y0 [|y1 [|y2 [|y3 [|s1 [|m0 [|m1 [|s2 [|d0 [|d1 [|c rest]]]]]]]]]]];
    try discriminate.
  destruct (_ && _) eqn:Hshape; [|discriminate]. intros _.
  repeat match goal with
  | H : _ && _ = true |- _ => apply andb_true_iff in H; destruct H
  end.
  repeat match goal with
  | H : Ascii.eqb _ _ = true |- _ => apply Ascii.eqb_eq in H; subst
  end.
  split; [done|]. cbn [all_chars].
  repeat match goal with
  | H : isDigitChar ?c = true |- _ => rewrite (digit_is_not_slash c H); clear H
  end.
  reflexivity.
Qed.

Lemma append_inj_r (a b s : string) : a +:+ s = b +:+ s -> a = b.
Proof.
  intros Heq.
  assert (Hlen : String.length a = String.length b).
  { apply (f_equal String.length) in Heq.
    rewrite !GoTimeFacts.append_length in Heq. lia. }
  revert b Heq Hlen. induction a as [|c a IH]; intros [|d b] Heq Hlen;
    try discriminate Hlen; [done|].
  injection Heq as -> Heq. f_equal. apply IH; [exact Heq|].
  by injection Hlen.
Qed.

(** *** [cacheTemplates] *)

(** X14. The template pattern picks up a path exactly when the path is a
    run of letters and slashes followed at once by [.html], with anything
    at all after it. So fragments such as [views/_header.html] and page
    names with a digit, a hyphen or an underscore are skipped, while a
    name such as [views/home.html.bak] is picked up. *)
Theorem template_pattern_matches (path : string) :
  re_MatchString path = true <->
  exists a b, path = a +:+ ".html" +:+ b /\ all_chars isTemplateChar a = true.
Proof.
  unfold re_MatchString. split.
  - destruct (span isTemplateChar path) as [a rest] eqn:Hs.
    destruct (strip_prefix ".html" rest) as [b|] eqn:Hp; [|done]. intros _.
    apply span_spec in Hs as [-> Ha]. apply strip_prefix_Some in Hp as ->.
    by exists a, b.
  - intros (a & b & -> & Ha).
    rewrite (span_all isTemplateChar a (".html" +:+ b)) by done.
    by rewrite strip_prefix_app.
Qed.

Lemma re_MatchString_page (name : string) :
  all_chars isTemplateChar name = true ->
  re_MatchString ("views/" +:+ name +:+ ".html") = true.
Proof.
  intros Hname. unfold re_MatchString.
  change ("views/" +:+ name +:+ ".html") with (("views/" +:+ name) +:+ ".html").
  rewrite (span_all isTemplateChar ("views/" +:+ name) ".html") by done.
  reflexivity.
Qed.

Lemma normalisedPath_page (name : string) :
  normalisedPath ("views/" +:+ name +:+ ".html") = name.
Proof.
  unfold normalisedPath, TrimPrefix, TrimSuffix.
  rewrite strip_prefix_app. by rewrite strip_suffix_app.
Qed.

Lemma walkTemplates_keys
  (parse : list string -> error + Template)
  (visits : list (string * option error)) (acc T : gmap string Template) :
  walkTemplates parse visits acc = Booted T ->
  forall k, is_Some (T !! k) <->
    is_Some (acc !! k) \/
    exists path, In (path, None) visits /\ re_MatchString path = true /\
                 normalisedPath path = k.
Proof.
  revert acc. induction visits as [|[path [err|]] visits IH]; intros acc; cbn [walkTemplates].
  - intros [= <-] k. split; [by left|]. by intros [?|(? & [] & _)].
  - done.
  - destruct (re_MatchString path) eqn:Hre.
    + destruct (parse _) as [err|t]; [done|]. intros HT k.
      rewrite (IH _ HT k), lookup_insert_is_Some. split.
      * intros [[<-|[_ Hacc]]|(p & Hin & Hp & Hk)].
        -- right. exists path. split; [by left|done].
        -- by left.
        -- right. exists p. split; [by right|done].
      * intros [Hacc|(p & [[= <-]|Hin] & Hp & Hk)].
        -- destruct (decide (normalisedPath path = k)); [left; by left|].
           left; right. done.
        -- left; by left.
        -- right. by exists p.
    + intros HT k. rewrite (IH _ HT k). split.
      * intros [?|(p & Hin & Hp & Hk)]; [by left|].
        right. exists p. split; [by right|done].
      * intros [?|(p & [[= <-]|Hin] & Hp & Hk)]; [by left|congruence|].
        right. by exists p.
Qed.

Lemma cacheTemplates_page
  (parse : list string -> error + Template)
  (visits : list (string * option error)) (T : gmap string Template) (name : string) :
  cacheTemplates parse visits = Booted T ->
  In ("views/" +:+ name +:+ ".html", None) visits ->
  all_chars isTemplateChar name = true ->
  is_Some (T !! name).
Proof.
  intros HT Hin Hname.
  apply (walkTemplates_keys parse visits ∅ T HT name). right.
  exists ("views/" +:+ name +:+ ".html").
  split; [done|]. split; [by apply re_MatchString_page | apply normalisedPath_page].
Qed.

(** X15. Once [cacheTemplates] has run to its end, [Templates] holds an
    entry under a name exactly when the walk visited a path that the
    pattern picks up and whose normalised form (without a leading [views/]
    and a trailing [.html]) is that name. In particular every visited page
    [views/<name>.html] whose name is made of letters and slashes is held
    under [<name>]. *)
Theorem cacheTemplates_keys
  (parse : list string -> error + Template)
  (visits : list (string * option error)) (T : gmap string Template) :
  cacheTemplates parse visits = Booted T ->
  (forall k, is_Some (T !! k) <->
     exists path, In (path, None) visits /\ re_MatchString path = true /\
                  normalisedPath path = k) /\
  (forall name, In ("views/" +:+ name +:+ ".html", None) visits ->
     all_chars isTemplateChar name = true -> is_Some (T !! name)).
Proof.
  intros HT. split.
  - intros k. rewrite (walkTemplates_keys parse visits ∅ T HT k), lookup_empty.
    split; [intros [[? [=]]|?]; done | by right].
  - intros name Hin Hname.
    exact (cacheTemplates_page parse visits T name HT Hin Hname).
Qed.

(** *** What serving a request adds to the trace *)

Ltac allowed_ok :=
  unfold allowed, uses_request_ctx, mutates_on_write_route, no_note_Get,
    opaque_error, known_redirect, write_route, FormValue;
  cbn [NoteCall_ctx mutating Context URL_Path RequestURI Form setVars];
  repeat split; try done; eauto 6.

Ltac appended :=
  eexists; split; [rewrite <- ?app_assoc; reflexivity|];
  unfold handled, well_served; cbn [app];
  split; [repeat (constructor; [allowed_ok|]); constructor|];
  split; [cbn; lia|]; try reflexivity; try (cbn; lia).

Section Served.
Context {DB : Type} `{NoteRepo DB} `{PrincipalRepo DB}.
Variable G : Globals.

Lemma HomeHandler_handled r : adds (handled r) (HomeHandler G) r.
Proof. intros w. run_handler; appended. Qed.

Lemma HomeSinceHandler_handled r : adds (handled r) (HomeSinceHandler G) r.
Proof. intros w. run_handler; appended. Qed.

Lemma SubmitHandler_handled r : adds (DB:=DB) (handled r) (SubmitHandler G) r.
Proof. intros w. run_handler; appended. Qed.

Lemma SearchHandler_handled r : adds (handled r) (SearchHandler G) r.
Proof. intros w. run_handler; appended. Qed.

Lemma serveResources_handled r : adds (DB:=DB) (handled r) (serveResources G) r.
Proof. intros w. run_handler; appended. Qed.

Lemma AddNoteHandler_handled r :
  URL_Path r = "/note" -> adds (DB:=DB) (handled r) AddNoteHandler r.
Proof. intros Hp w. run_handler; appended. Qed.

Lemma ToggleNoteHandler_handled r :
  URL_Path r = "/note/toggle" -> adds (DB:=DB) (handled r) ToggleNoteHandler r.
Proof. intros Hp w. run_handler; appended. Qed.

Lemma DeleteNoteHandler_handled r :
  (exists id, numeric id = true /\ URL_Path r = "/note/" +:+ id +:+ "/delete") ->
  adds (DB:=DB) (handled r) DeleteNoteHandler r.
Proof. intros Hp w. run_handler; appended. Qed.

Lemma gated_route_handled (r : Request) (h : Handler) (vars : gmap string string) :
  Router_Match (authedRouter_routes G) (URL_Path r) = Some (h, vars) ->
  adds (handled r) h (setVars r vars).
Proof.
  unfold authedRouter_routes. cbn [Router_Match]. intros Hgated.
  repeat match type of Hgated with
  | context [match Pattern_match ?p ?path with _ => _ end] =>
      destruct (Pattern_match p path) as [vs|] eqn:?
  end; simplify_eq.
  - apply (HomeHandler_handled (setVars r vars)).
  - apply (HomeSinceHandler_handled (setVars r vars)).
  - apply (SubmitHandler_handled (setVars r vars)).
  - apply (SearchHandler_handled (setVars r vars)).
  - apply (serveResources_handled (setVars r vars)).
  - apply (AddNoteHandler_handled (setVars r vars)).
    match goal with
    | Hm : Pattern_match (Path "/note") _ = Some _ |- _ =>
        cbn [Pattern_match] in Hm;
        destruct (String.eqb (URL_Path r) "/note") eqn:E; [|discriminate Hm]
    end.
    by apply String.eqb_eq in E.
  - apply (DeleteNoteHandler_handled (setVars r vars)).
    match goal with
    | Hm : Pattern_match (PathVar "/note/" _ _ _) _ = Some _ |- _ =>
        apply delete_route_binds_digits in Hm as (id & _ & Hnum & Hpath)
    end.
    by exists id.
  - apply (ToggleNoteHandler_handled (setVars r vars)).
    match goal with
    | Hm : Pattern_match (Path "/note/toggle") _ = Some _ |- _ =>
        cbn [Pattern_match] in Hm;
        destruct (String.eqb (URL_Path r) "/note/toggle") eqn:E; [|discriminate Hm]
    end.
    by apply String.eqb_eq in E.
Qed.

Lemma ensureAuthed_well_served (next : Handler) (r : Request) :
  adds (handled r) next r -> adds (well_served r) (ensureAuthed next) r.
Proof.
  intros Hnext w.
  destruct (assert_string (Values (fst (Store_Get r "auth")) !! "user_id"))
    as [id [|]] eqn:Hid.
  - destruct (ensureAuthed_admits next r w id Hid) as [_ ->].
    match goal with
    | |- context [run_from (next r) ?w1] =>
        destruct (Hnext w1) as (added & -> & Hall & Hcalls & Hgets)
    end.
    cbn [w_trace].
    exists ([EvLogPrintf (Values (fst (Store_Get r "auth")));
             EvPrincipalGet (Context r) id] ++ added).
    split; [by rewrite <- app_assoc|].
    split; [|split].
    + repeat (constructor; [allowed_ok|]). exact Hall.
    + exact Hcalls.
    + unfold principal_gets in *. cbn. rewrite Hgets. cbn. lia.
  - rewrite ensureAuthed_rejects by (unfold verdict; by rewrite Hid).
    cbn [w_trace]. eexists; split; [reflexivity|].
    unfold session_log.
    destruct (Store_Get r "auth") as [s [e|]]; cbn [app];
      (split; [repeat (constructor; [allowed_ok|]); constructor|]);
      split; cbn; lia.
Qed.

Lemma ServeHTTP_well_served (r : Request) : adds (well_served r) (ServeHTTP G) r.
Proof.
  intros w. unfold ServeHTTP.
  destruct (Router_Match (r_routes (DB:=DB)) (URL_Path r)) as [[h vars]|] eqn:Hopen.
  - unfold r_routes in Hopen. cbn [Router_Match Pattern_match] in Hopen.
    repeat match type of Hopen with
    | context [String.eqb ?a ?b] => destruct (String.eqb a b)
    end; simplify_eq; run_handler; appended.
  - destruct (Router_Match (authedRouter_routes G) (URL_Path r))
      as [[h vars]|] eqn:Hgated; [|run_handler; appended].
    assert (Hh : adds (handled (setVars r vars)) h (setVars r vars))
      by exact (gated_route_handled r h vars Hgated).
    exact (ensureAuthed_well_served h (setVars r vars) Hh w).
Qed.

Lemma served_well_served (r : Request) (db : DB) : well_served r (served G r db).
Proof.
  destruct (ServeHTTP_well_served r (mkWorld db [])) as (added & Ht & Hw).
  unfold served. rewrite Ht. exact Hw.
Qed.

Lemma Forall_allowed (r : Request) (P : Event -> Prop) (tr : list Event) :
  (forall e, allowed r e -> P e) -> well_served r tr -> Forall P tr.
Proof.
  intros HP (Hall & _ & _). eapply Forall_impl; [exact Hall | exact HP].
Qed.

(** X4. Serving a request makes at most one call on the note repository
    and at most one look-up on the principal repository, and each of them
    carries the context of that request. (What the three handlers of the
    external authentication package do on [/login], [/logout] and
    [/callback] is a single opaque event here, in this and the next four
    statements.) *)
Theorem one_call_per_request (r : Request) (db : DB) :
  (length (note_calls (served G r db)) <= 1)%nat /\
  (length (principal_gets (served G r db)) <= 1)%nat /\
  Forall (uses_request_ctx r) (served G r db).
Proof.
  pose proof (served_well_served r db) as Hw.
  split; [apply Hw|]. split; [apply Hw|].
  apply (Forall_allowed r); [|exact Hw]. by intros e (? & _).
Qed.

(** X5. A call that changes note state ([Add], [ToggleDone], [Delete]) is
    made only while serving [/note], [/note/toggle] or
    [/note/<digits>/delete]; every other path leaves the notes as they
    are. *)
Theorem read_only_routes_never_mutate (r : Request) (db : DB) :
  Forall (mutates_on_write_route r) (served G r db).
Proof.
  apply (Forall_allowed r); [|apply served_well_served]. by intros e (_ & ? & _).
Qed.

(** X6. No request makes the note repository's [Get] call: the one handler
    that would, [ViewNoteHandler], is registered under no route. *)
Theorem note_Get_is_never_called (r : Request) (db : DB) :
  Forall no_note_Get (served G r db).
Proof.
  apply (Forall_allowed r); [|apply served_well_served]. by intros e (_ & _ & ? & _).
Qed.

(** X7. Whatever goes wrong while a request is served, every call of
    [http.Error] the program makes passes either the fixed text
    ["There was an unexpected error"] with status 500 or the request's own
    URI with status 404: the program never passes the message of an error
    to [http.Error]. *)
Theorem http_Error_is_never_passed_an_error_message (r : Request) (db : DB) :
  Forall (opaque_error r) (served G r db).
Proof.
  apply (Forall_allowed r); [|apply served_well_served].
  by intros e (_ & _ & _ & ? & _).
Qed.

(** X8. Every call of [http.Redirect] made while a request is served
    passes one of three targets: [/login] with status 307, [/] with status
    303, or, on the toggle route only, [/#] followed by the [id] form value
    of the request, with status 303. *)
Theorem http_Redirect_is_passed_a_known_target (r : Request) (db : DB) :
  Forall (known_redirect r) (served G r db).
Proof.
  apply (Forall_allowed r); [|apply served_well_served].
  by intros e (_ & _ & _ & _ & ?).
Qed.

(** X9. When the call on the note repository returns an error, each of the
    seven handlers that make one adds exactly three things to the trace:
    the call, the generic failure answer, and a log line with the message
    of the error. Nothing is rendered, nothing is redirected, and what the
    repository returned next to the error is dropped. *)
Theorem store_errors_become_the_generic_failure (r : Request) (w : World DB) (err : error) :
  (snd (fst (NoteRepo_GetAllSince (Context r) (time_Now G) (w_db w))) = Some err ->
   w_trace (run_from (HomeHandler G r) w) =
     w_trace w ++ [EvNote (CallGetAllSince (Context r) (time_Now G));
                   generic_failure; EvLogPrintln (error_msg err)]) /\
  (forall t, Parse_RFC3339 (index (Vars r) "date" +:+ "T00:00:00+11:00") = inr t ->
   snd (fst (NoteRepo_GetAllSince (Context r) t (w_db w))) = Some err ->
   w_trace (run_from (HomeSinceHandler G r) w) =
     w_trace w ++ [EvNote (CallGetAllSince (Context r) t);
                   generic_failure; EvLogPrintln (error_msg err)]) /\
  (snd (fst (NoteRepo_Search (Context r) (FormValue r "query") (w_db w))) = Some err ->
   w_trace (run_from (SearchHandler G r) w) =
     w_trace w ++ [EvNote (CallSearch (Context r) (FormValue r "query"));
                   generic_failure; EvLogPrintln (error_msg err)]) /\
  (snd (fst (NoteRepo_Get (Context r) (index (Vars r) "noteId") (w_db w))) = Some err ->
   w_trace (run_from (ViewNoteHandler G r) w) =
     w_trace w ++ [EvNote (CallGet (Context r) (index (Vars r) "noteId"));
                   generic_failure; EvLogPrintln (error_msg err)]) /\
  (fst (NoteRepo_Add (Context r) (FormValue r "body") (FormValue r "tags") (w_db w)) = Some err ->
   w_trace (run_from (AddNoteHandler r) w) =
     w_trace w ++ [EvNote (CallAdd (Context r) (FormValue r "body") (FormValue r "tags"));
                   generic_failure; EvLogPrintln (error_msg err)]) /\
  (fst (NoteRepo_ToggleDone (Context r) (FormValue r "id") (w_db w)) = Some err ->
   w_trace (run_from (ToggleNoteHandler r) w) =
     w_trace w ++ [EvNote (CallToggleDone (Context r) (FormValue r "id"));
                   generic_failure; EvLogPrintln (error_msg err)]) /\
  (fst (NoteRepo_Delete (Context r) (index (Vars r) "id") (w_db w)) = Some err ->
   w_trace (run_from (DeleteNoteHandler r) w) =
     w_trace w ++ [EvNote (CallDelete (Context r) (index (Vars r) "id"));
                   generic_failure; EvLogPrintln (error_msg err)]).
Proof.
  unfold generic_failure.
  repeat split; try intros t Ht; intros Herr;
    unfold run_from, HomeHandler, HomeSinceHandler, SearchHandler, ViewNoteHandler,
      AddNoteHandler, ToggleNoteHandler, DeleteNoteHandler,
      noteRepo_GetAllSince, noteRepo_Search, noteRepo_Get, noteRepo_Add,
      noteRepo_ToggleDone, noteRepo_Delete, handleUnexpectedError, http_Error,
      on_db, bind, emit;
    rewrite ?Ht; cbn [w_db w_trace fst snd];
    match type of Herr with
    | snd (fst ?x) = _ => destruct x as [[res e] db']
    | fst ?x = _ => destruct x as [e db']
    end;
    cbn [fst snd] in Herr; subst; cbn; by rewrite <- ?app_assoc.
Qed.


Lemma verdict_true_identifier (r : Request) :
  verdict r = true ->
  exists uid, assert_string (Values (fst (Store_Get r "auth")) !! "user_id") = (uid, true).
Proof.
  unfold verdict.
  destruct (assert_string _) as [uid ok]. cbn. intros ->. by exists uid.
Qed.


(** X10. A request to [/note/<id>/delete] whose [id] is a path element
    that is not all digits matches no route: the answer is the router's
    not-found, the session is not even read and the database is left as
    it was. *)
Theorem delete_with_non_numeric_id_is_not_found (r : Request) (w : World DB) (id : string) :
  path_segment id = true ->
  numeric id = false ->
  URL_Path r = "/note/" +:+ id +:+ "/delete" ->
  run_from (ServeHTTP G r) w = mkWorld (w_db w) (w_trace w ++ [EvNotFound]).
Proof.
  intros _ Hnum Hpath. unfold ServeHTTP. rewrite Hpath.
  change (Router_Match (r_routes (DB:=DB)) ("/note/" +:+ id +:+ "/delete"))
    with (@None (Handler (DB:=DB) * gmap string string)).
  cbv iota.
  assert (Hgated : Router_Match (authedRouter_routes G) ("/note/" +:+ id +:+ "/delete") = None).
  { unfold authedRouter_routes. cbn [Router_Match].
    change (Pattern_match (Path "/") ("/note/" +:+ id +:+ "/delete")) with (@None (gmap string string)).
    change (Pattern_match (PathVar "/t/" "date" notSlash "") ("/note/" +:+ id +:+ "/delete"))
      with (@None (gmap string string)).
    change (Pattern_match (Path "/submit") ("/note/" +:+ id +:+ "/delete")) with (@None (gmap string string)).
    change (Pattern_match (Path "/search") ("/note/" +:+ id +:+ "/delete")) with (@None (gmap string string)).
    change (Pattern_match (PathPrefix "/public/") ("/note/" +:+ id +:+ "/delete")) with (@None (gmap string string)).
    change (Pattern_match (Path "/note") ("/note/" +:+ id +:+ "/delete")) with (@None (gmap string string)).
    cbv iota.
    destruct (Pattern_match (PathVar "/note/" "id" isDigitChar "/delete") _) as [vars|] eqn:Hdel.
    - apply delete_route_binds_digits in Hdel as (v & _ & Hv & Heq).
      injection Heq as Heq. change (id +:+ "/delete" = v +:+ "/delete") in Heq.
      apply append_inj_r in Heq. congruence.
    - cbn [Pattern_match].
      destruct (String.eqb _ "/note/toggle") eqn:E; [|done].
      apply String.eqb_eq in E. injection E as E.
      change (id +:+ "/delete" = "toggle") in E.
      apply (f_equal String.length) in E.
      rewrite GoTimeFacts.append_length in E. cbn in E. lia. }
  rewrite Hgated. reflexivity.
Qed.

(** X13. Router, gate and handler together: for a request to [/t/<date>]
    whose [date] reads as a calendar date and whose session passes the
    gate, the one call on the note repository is [GetAllSince] with the
    request's context and midnight of that date at UTC+11:00. *)
Theorem authenticated_since_asks_from_midnight
  (r : Request) (db : DB) (date : string) (y m d : Z) :
  URL_Path r = "/t/" +:+ date ->
  calendar_date date = Some (y, m, d) ->
  verdict r = true ->
  note_calls (served G r db) = [CallGetAllSince (Context r) (midnight_plus11 y m d)].
Proof.
  intros Hpath Hdate Hv.
  destruct (calendar_date_segment date _ Hdate) as [Hne Hseg].
  destruct (verdict_true_identifier r Hv) as [uid Huid].
  pose proof (GoTimeFacts.Parse_date date) as Hparse. rewrite Hdate in Hparse.
  unfold since_suffix in Hparse.
  unfold served, ServeHTTP. rewrite Hpath.
  change (Router_Match (r_routes (DB:=DB)) ("/t/" +:+ date))
    with (@None (Handler (DB:=DB) * gmap string string)).
  cbv iota.
  assert (Hgated : Router_Match (authedRouter_routes G) ("/t/" +:+ date)
                   = Some (HomeSinceHandler G, {[ "date" := date ]})).
  { unfold authedRouter_routes. cbn [Router_Match].
    change (Pattern_match (Path "/") ("/t/" +:+ date)) with (@None (gmap string string)).
    cbv iota. unfold Pattern_match.
    change (strip_prefix "/t/" ("/t/" +:+ date)) with (Some date).
    cbv iota. rewrite span_whole by done. by rewrite Hne. }
  rewrite Hgated.
  destruct (ensureAuthed_admits (HomeSinceHandler G) (setVars r {[ "date" := date ]})
              (mkWorld db []) uid Huid) as [_ ->].
  unfold HomeSinceHandler, index. cbn [Vars setVars].
  rewrite lookup_singleton_eq. cbn [default from_option id]. rewrite Hparse.
  run_handler; cbn [w_trace]; rewrite ?note_calls_app; reflexivity.
Qed.

Ltac exact_path tpl :=
  let E := fresh "E" in
  destruct (String.eqb _ tpl) eqn:E;
  [apply String.eqb_eq in E; subst; lazy; lia|].

(** X11. No path matches two of the eleven registered routes, so the order
    in which [main] registers them decides nothing. *)
Theorem routes_do_not_overlap (path : string) :
  (length (matching (map fst (r_routes (DB:=DB)) ++ map fst (authedRouter_routes G)) path)
   <= 1)%nat.
Proof.
  unfold matching, r_routes, authedRouter_routes.
  cbn [map app List.filter fst Pattern_match].
  exact_path "/login". exact_path "/logout". exact_path "/callback".
  exact_path "/". exact_path "/submit". exact_path "/search".
  exact_path "/note". exact_path "/note/toggle".
  cbv iota.
  destruct (strip_prefix "/t/" path) as [r1|] eqn:H1;
  destruct (strip_prefix "/public/" path) as [r2|] eqn:H2;
  destruct (strip_prefix "/note/" path) as [r3|] eqn:H3;
  try apply strip_prefix_Some in H1;
  try apply strip_prefix_Some in H2;
  try apply strip_prefix_Some in H3;
  subst; try discriminate;
  repeat case_match; cbn; lia.
Qed.

(** X16. Start-up and rendering fit together. If [cacheTemplates] ran to
    its end over a walk that visited [views/<name>.html], with [name] made
    of letters and slashes, then in production [RenderTemplate] finds the
    template under [name], so it does not panic, and executes it against
    the page data; it does nothing more when the execution succeeds and
    hands the error to [handleUnexpectedError] when it fails. *)
Theorem cached_page_renders_in_production
  (parse : list string -> error + Template)
  (visits : list (string * option error)) (T : gmap string Template)
  (name : string) (data : PageData) (w : World DB) :
  cacheTemplates parse visits = Booted T ->
  In ("views/" +:+ name +:+ ".html", None) visits ->
  all_chars isTemplateChar name = true ->
  ENV G = Production -> Templates G = T ->
  exists t, T !! name = Some t /\
    run_from (RenderTemplate G name data) w =
    run_from
      match Execute t data with
      | Some err => handleUnexpectedError err
      | None => ret tt
      end
      (mkWorld (w_db w) (w_trace w ++ [EvExecute name data])).
Proof.
  intros HT Hin Hname Henv HG.
  destruct (cacheTemplates_page parse visits T name HT Hin Hname) as [t Ht].
  exists t. split; [exact Ht|].
  unfold run_from, RenderTemplate, bind, emit.
  rewrite Henv, HG, Ht. cbn [w_trace w_db fst snd]. reflexivity.
Qed.

End Served.

(** *** The statements above, run *)

Import Stub.

Lemma store_errors_become_the_generic_failure_witness :
  let r := setVars (request "/t/2022-03-04" {[ "query" := "milk"; "id" := "7" ]} ada_cookie)
             {[ "date" := "2022-03-04"; "id" := "7" ]} in
  let failure := [generic_failure; EvLogPrintln "connection refused"] in
  w_trace (run_from (HomeHandler globals r) broken_world) =
    EvNote (CallGetAllSince (CtxRequest false) (time_Now globals)) :: failure /\
  w_trace (run_from (HomeSinceHandler globals r) broken_world) =
    EvNote (CallGetAllSince (CtxRequest false) (midnight_plus11 2022 3 4)) :: failure /\
  w_trace (run_from (SearchHandler globals r) broken_world) =
    EvNote (CallSearch (CtxRequest false) "milk") :: failure /\
  w_trace (run_from (ViewNoteHandler globals r) broken_world) =
    EvNote (CallGet (CtxRequest false) "") :: failure /\
  w_trace (run_from (AddNoteHandler r) broken_world) =
    EvNote (CallAdd (CtxRequest false) "" "") :: failure /\
  w_trace (run_from (ToggleNoteHandler r) broken_world) =
    EvNote (CallToggleDone (CtxRequest false) "7") :: failure /\
  w_trace (run_from (DeleteNoteHandler r) broken_world) =
    EvNote (CallDelete (CtxRequest false) "7") :: failure.
Proof.
  intros r failure.
  destruct (store_errors_become_the_generic_failure globals r broken_world
              (Err "connection refused"))
    as (Hhome & Hsince & Hsearch & Hview & Hadd & Htoggle & Hdelete).
  split; [exact (Hhome eq_refl)|].
  split; [exact (Hsince (midnight_plus11 2022 3 4) eq_refl eq_refl)|].
  split; [exact (Hsearch eq_refl)|].
  split; [exact (Hview eq_refl)|].
  split; [exact (Hadd eq_refl)|].
  split; [exact (Htoggle eq_refl)|].
  exact (Hdelete eq_refl).
Defined.

Lemma delete_with_non_numeric_id_is_not_found_witness :
  let r := request "/note/7a/delete" ∅ ada_cookie in
  (path_segment "7a" = true /\ numeric "7a" = false /\
   URL_Path r = "/note/" +:+ "7a" +:+ "/delete") /\
  run_from (ServeHTTP globals r) world = mkWorld backend [EvNotFound].
Proof.
  intros r. split; [by repeat split|].
  exact (delete_with_non_numeric_id_is_not_found globals r world "7a"
           eq_refl eq_refl eq_refl).
Defined.


Lemma authenticated_since_asks_from_midnight_witness :
  let r := request "/t/2022-03-04" ∅ ada_cookie in
  (URL_Path r = "/t/" +:+ "2022-03-04" /\
   calendar_date "2022-03-04" = Some (2022, 3, 4)%Z /\ verdict r = true) /\
  note_calls (served globals r backend) =
    [CallGetAllSince (CtxRequest false) (midnight_plus11 2022 3 4)].
Proof.
  intros r. split; [by repeat split|].
  exact (authenticated_since_asks_from_midnight globals r backend "2022-03-04"
           2022 3 4 eq_refl eq_refl eq_refl).
Defined.

Lemma cacheTemplates_keys_witness :
  cacheTemplates parse_any views_walk = Booted cached_views /\
  (is_Some (cached_views !! "home") <->
   exists path, In (path, None) views_walk /\ re_MatchString path = true /\
                normalisedPath path = "home") /\
  is_Some (cached_views !! "submit").
Proof.
  assert (HT : cacheTemplates parse_any views_walk = Booted cached_views)
    by reflexivity.
  split; [exact HT|].
  destruct (cacheTemplates_keys parse_any views_walk cached_views HT) as [Hkeys Hpage].
  split; [apply Hkeys|].
  apply (Hpage "submit"); [|reflexivity].
  right; right; right; right; left; reflexivity.
Defined.

Lemma cached_page_renders_in_production_witness :
  let G := mkGlobals Production cached_views parse_any (fun _ => None) (time_Now globals) in
  (cacheTemplates parse_any views_walk = Booted cached_views /\
   In ("views/" +:+ "home" +:+ ".html", None) views_walk /\
   all_chars isTemplateChar "home" = true) /\
  exists t, cached_views !! "home" = Some t /\
    run_from (RenderTemplate G "home" (mkPageData [])) world =
    run_from
      match Execute t (mkPageData []) with
      | Some err => handleUnexpectedError err
      | None => ret tt
      end
      (mkWorld backend ([] ++ [EvExecute "home" (mkPageData [])])).
Proof.
  intros G.
  assert (HT : cacheTemplates parse_any views_walk = Booted cached_views)
    by reflexivity.
  assert (Hin : In ("views/" +:+ "home" +:+ ".html", None) views_walk).
  { right; right; right; left; reflexivity. }
  split; [by repeat split|].
  exact (cached_page_renders_in_production G parse_any views_walk cached_views
           "home" (mkPageData []) world HT Hin eq_refl eq_refl eq_refl).
Defined.

(** Paths the template pattern takes and leaves. *)
Example template_pattern_samples :
  re_MatchString "views/home.html" = true /\
  re_MatchString "views/home.html.bak" = true /\
  re_MatchString "views/_header.html" = false /\
  re_MatchString "views/note-list.html" = false /\
  re_MatchString "views/page2.html" = false /\
  re_MatchString "views" = false.
Proof. repeat split. Qed.

End ServerFacts.
